(** * A styled console logger: level filtering, hooks and groups

    Shallow embedding of [src/logger.js].  The logger is a closure over
    four constants fixed by [createLogger] ([showTimestamp], [namespace],
    [mergedStyles], [minLevel]) and two mutable variables ([isEnabled],
    [hooks]).  Everything the logger does to the outside (the console
    sink, the hooks, the group callback) is recorded as a trace of events,
    and JavaScript exceptions are explicit completions.

    What is modelled of the surroundings:
    - the hook set is a [Set]: a list of entries in insertion order in
      which a deleted entry leaves an empty slot, so that a loop over
      the set that is under way sees the deletions and the additions
      made meanwhile;
    - a hook is a function that may call [setEnabled], [onLog] and the
      closures [onLog] returned, and then returns or throws; it does not
      print through the logger;
    - the loop over the hooks need not end (a hook may register itself
      anew at every call): it is run for a given number of steps, and a
      run that needs more completes as [OutOfFuel];
    - a group callback is an arbitrary computation over the logger's
      mutable state;
    - a property read finds own and inherited members; an own property
      may hold [undefined];
    - the console sink never throws;
    - the wall clock, the locale time formatter, the hook bodies and the
      fate of promises created by user code are parameters. *)

From Stdlib Require Import Ascii.
From stdpp Require Import gmap strings list.

Local Open Scope Z_scope.

(** ** JavaScript values *)

(** The closure passed to [Promise.prototype.finally] by [group]; the
    captured variable is [shouldRender]. *)
Inductive Finalizer : Type :=
| GroupCloser (shouldRender : bool).

(** A promise is either created by user code (and identified by a
    reference) or derived from another promise by [finally]. *)
Inductive Promise : Type :=
| PNative (ref : nat)
| PFinally (p : Promise) (onFinally : Finalizer).

(** [VPromise] is a value that is [instanceof Promise]; [VThenable] is a
    promise-like object (it has a [then] method and settles later) that
    is not; [VObject] is any other object. *)
Inductive Value : Type :=
| VUndefined
| VBool (b : bool)
| VNum (n : Z)
| VStr (s : string)
| VObject (ref : nat)
| VThenable (ref : nat)
| VPromise (p : Promise).

(** How a promise ends. *)
Inductive Settlement : Type :=
| Fulfilled (v : Value)
| Rejected (reason : Value).

(** The values a callback may hand back as a computation that settles
    later. *)
Definition deferred (v : Value) : Prop :=
  match v with
  | VPromise _ | VThenable _ => True
  | _ => False
  end.

(** ** Levels, ranks and styles *)

Inductive LogLevel : Type := Debug | Log | Info | Warn | Error | Success.

(** The string a level is in the source. *)
Definition level_name (l : LogLevel) : string :=
  match l with
  | Debug => "debug" | Log => "log" | Info => "info"
  | Warn => "warn" | Error => "error" | Success => "success"
  end.

(** The frozen object [LOG_LEVELS], by its own properties. *)
Definition LOG_LEVELS : gmap string Z :=
  <["debug" := 0]> (<["log" := 1]> (<["info" := 2]> (<["warn" := 3]>
  (<["error" := 4]> (<["success" := 5]> ∅))))).

(** The members every object literal inherits from [Object.prototype]. *)
Definition Object_prototype : list string :=
  ["constructor"; "__defineGetter__"; "__defineSetter__"; "hasOwnProperty";
   "__lookupGetter__"; "__lookupSetter__"; "isPrototypeOf";
   "propertyIsEnumerable"; "toString"; "valueOf"; "__proto__"; "toLocaleString"].

(** What [minLevel] can hold: a rank, or an inherited member of
    [LOG_LEVELS] (a function or an object, never a number). *)
Inductive MinLevel : Type :=
| MinRank (r : Z)
| MinInherited (name : string).

(** [LOG_LEVELS[name]]: an own property, an inherited member, or
    [undefined]. *)
Definition LOG_LEVELS_get (name : string) : option MinLevel :=
  match LOG_LEVELS !! name with
  | Some r => Some (MinRank r)
  | None =>
      if bool_decide (name ∈ Object_prototype) then Some (MinInherited name) else None
  end.

(** The frozen object [DEFAULT_STYLES]. *)
Definition DEFAULT_STYLES : gmap string string :=
  <["debug" := "color: #6272a4;"]>
  (<["log" := "color: #f8f8f2;"]>
  (<["info" := "color: #8be9fd; font-weight: bold;"]>
  (<["warn" := "color: #f1fa8c; font-weight: bold;"]>
  (<["error" := "color: #ff5555; font-weight: bold;"]>
  (<["success" := "color: #50fa7b; font-weight: bold;"]> ∅))))).

(** [styles[key]] on a style map, in which an own property holds a token
    or [undefined] ([None]): the value of the own property, [undefined]
    when there is none. *)
Definition js_get (styles : gmap string (option string)) (key : string) : option string :=
  match styles !! key with
  | Some value => value
  | None => None
  end.

(** [a < b] where [a] is the result of a property lookup and [b] is
    [minLevel]: [undefined] and an inherited member compare false with
    everything. *)
Definition js_lt (a : option Z) (b : MinLevel) : bool :=
  match a, b with
  | Some x, MinRank y => x <? y
  | _, _ => false
  end.

(** [a >= b], likewise. *)
Definition js_ge (a : option Z) (b : MinLevel) : bool :=
  match a, b with
  | Some x, MinRank y => y <=? x
  | _, _ => false
  end.

(** [String.prototype.toUpperCase] on ASCII text (level names are ASCII). *)
Definition upper_ascii (c : ascii) : ascii :=
  let n := nat_of_ascii c in
  if ((97 <=? n) && (n <=? 122))%nat then ascii_of_nat (n - 32) else c.

Fixpoint toUpperCase (s : string) : string :=
  match s with
  | EmptyString => EmptyString
  | String c s' => String (upper_ascii c) (toUpperCase s')
  end.

(** [Array.prototype.join]. *)
Definition join (sep : string) (parts : list string) : string :=
  String.concat sep parts.

(** Truthiness of [namespace]: [undefined] and the empty string are falsy. *)
Definition truthy (ns : option string) : bool :=
  match ns with
  | None => false
  | Some EmptyString => false
  | Some _ => true
  end.

(** The text a template literal substitutes for [namespace]. *)
Definition ns_text (ns : option string) : string :=
  match ns with
  | None => "undefined"
  | Some s => s
  end.

(** ** Events, state and the computation monad *)

Definition Time := Z.
Definition Hook := nat.

(** The record handed to a hook. *)
Record LogMeta : Type := mkMeta {
  meta_timestamp : Time;
  meta_namespace : option string;
  meta_level : LogLevel;
  meta_args : list Value
}.

(** What the logger does to its environment, in order. *)
Inductive Event : Type :=
| ConsoleLog (prefix : string) (style : option string) (payload : list Value)
| ConsoleWarn (label : string) (e : Value)
| ConsoleGroupCollapsed (title : string) (style : string)
| ConsoleGroupEnd
| HookCall (h : Hook) (l : LogLevel) (meta : LogMeta)
| CallbackCall.

(** The mutable variables of the closure of one logger, and the number
    of clock readings made so far.  [entries] is the data of the [Set]
    [hooks]: [None] is the empty slot a deletion leaves. *)
Record World : Type := mkWorld {
  isEnabled : bool;
  entries : list (option Hook);
  ticks : nat
}.

(** The hooks in the set, in insertion order. *)
Definition hooks (w : World) : list Hook := omap id (entries w).

(** How a computation ends: with a value, with a thrown value, or not
    within the steps it was given. *)
Inductive Completion (A : Type) : Type :=
| Normal (a : A)
| Throw (e : Value)
| OutOfFuel.
Arguments Normal {A} a.
Arguments Throw {A} e.
Arguments OutOfFuel {A}.

(** A computation runs on a world and gives a completion, the world it
    leaves and the events it made. *)
Definition M (A : Type) : Type := World -> Completion A * World * list Event.

Definition ret {A} (a : A) : M A := fun w => (Normal a, w, []).

Definition bind {A B} (m : M A) (k : A -> M B) : M B := fun w =>
  match m w with
  | (Normal a, w1, t1) => let '(r, w2, t2) := k a w1 in (r, w2, t1 ++ t2)
  | (Throw e, w1, t1) => (Throw e, w1, t1)
  | (OutOfFuel, w1, t1) => (OutOfFuel, w1, t1)
  end.

Definition throw {A} (e : Value) : M A := fun w => (Throw e, w, []).

(** [try { body } catch (e) { handler }]. *)
Definition tryCatch {A} (body : M A) (handler : Value -> M A) : M A := fun w =>
  match body w with
  | (Normal a, w1, t1) => (Normal a, w1, t1)
  | (Throw e, w1, t1) => let '(r, w2, t2) := handler e w1 in (r, w2, t1 ++ t2)
  | (OutOfFuel, w1, t1) => (OutOfFuel, w1, t1)
  end.

Definition gets {A} (f : World -> A) : M A := fun w => (Normal (f w), w, []).
Definition modify (f : World -> World) : M unit := fun w => (Normal tt, f w, []).
Definition tell (e : Event) : M unit := fun w => (Normal tt, w, [e]).

Notation "'let*' x ':=' m 'in' k" := (bind m (fun x => k))
  (at level 10, x name, m at level 100, k at level 200).
Notation "m >> k" := (bind m (fun _ => k))
  (at level 100, k at level 200, right associativity).

Definition when (b : bool) (m : M unit) : M unit := if b then m else ret tt.

(** [for (const hook of hooks) body], on the set as it is at each step:
    the loop goes through the entries by index, skips the empty slots,
    and ends when the index is past the last entry, wherever that is by
    then.  An abrupt completion of the body leaves the loop. *)
Fixpoint for_of (fuel : nat) (index : nat) (body : Hook -> M unit) : M unit := fun w =>
  match entries w !! index with
  | None => (Normal tt, w, [])
  | Some entry =>
      match fuel with
      | O => (OutOfFuel, w, [])
      | S fuel' =>
          match entry with
          | None => for_of fuel' (S index) body w
          | Some hook => (body hook >> for_of fuel' (S index) body) w
          end
      end
  end.

(** ** The hook set: a [Set], iterated in insertion order *)

Definition set_has (h : Hook) (s : list (option Hook)) : bool :=
  bool_decide (Some h ∈ s).

(** [Set.prototype.add]: an element already present keeps its place, a
    new one is appended. *)
Definition set_add (h : Hook) (s : list (option Hook)) : list (option Hook) :=
  if set_has h s then s else s ++ [Some h].

(** [Set.prototype.delete]: the entry of the element is emptied. *)
Definition set_delete (h : Hook) (s : list (option Hook)) : list (option Hook) :=
  (fun e => if bool_decide (e = Some h) then None else e) <$> s.

(** What a hook may do to the logger while it runs. *)
Inductive HookAction : Type :=
| DoSetEnabled (value : bool)
| DoOnLog (callback : Hook)
| DoUnsubscribe (callback : Hook).

(** ** The logger *)

(** The options object; an absent field is [None]. *)
Record LoggerOptions : Type := mkOptions {
  opt_showTimestamp : option bool;
  opt_namespace : option string;
  opt_styles : option (gmap string (option string));
  opt_level : option string
}.

(** The constants of the closure [createLogger] returns. *)
Record Logger : Type := mkLogger {
  showTimestamp : bool;
  namespace : option string;
  mergedStyles : gmap string (option string);
  minLevel : MinLevel
}.

(** ** Reading a trace *)

(** The rank of a level, as [LOG_LEVELS] gives it. *)
Definition rank (l : LogLevel) : Z := default 0 (LOG_LEVELS !! level_name l).

(** [r >= m] and [r < m] for a rank [r] and a minimum [m], as
    propositions. *)
Definition reaches (r : Z) (m : MinLevel) : Prop :=
  match m with
  | MinRank y => y <= r
  | MinInherited _ => False
  end.

Definition below (r : Z) (m : MinLevel) : Prop :=
  match m with
  | MinRank y => r < y
  | MinInherited _ => False
  end.

(** The token [DEFAULT_STYLES] documents for a level. *)
Definition default_token (l : LogLevel) : string :=
  match l with
  | Debug => "color: #6272a4;"
  | Log => "color: #f8f8f2;"
  | Info => "color: #8be9fd; font-weight: bold;"
  | Warn => "color: #f1fa8c; font-weight: bold;"
  | Error => "color: #ff5555; font-weight: bold;"
  | Success => "color: #50fa7b; font-weight: bold;"
  end.

Definition is_print (e : Event) : bool :=
  match e with ConsoleLog _ _ _ => true | _ => false end.

Definition is_callback_call (e : Event) : bool :=
  match e with CallbackCall => true | _ => false end.

(** The styled print calls of a trace. *)
Definition prints (t : list Event) : list Event := List.filter is_print t.

(** The hook invocations of a trace, in order. *)
Definition hook_calls (t : list Event) : list (Hook * LogLevel * LogMeta) :=
  omap (fun e => match e with HookCall h l m => Some (h, l, m) | _ => None end) t.

(** The hooks a trace invokes, in order. *)
Definition invoked (t : list Event) : list Hook :=
  omap (fun e => match e with HookCall h _ _ => Some h | _ => None end) t.

(** The errors a trace reports on the warning channel, in order. *)
Definition warnings (t : list Event) : list Value :=
  omap (fun e => match e with ConsoleWarn _ v => Some v | _ => None end) t.

(** How often the group callback is called in a trace. *)
Definition callback_calls (t : list Event) : nat :=
  length (List.filter is_callback_call t).

Section Environment.

(** The time the clock shows at its n-th reading, and
    [timeFormatter.format]. *)
Variable wallclock : nat -> Time.
Variable timeFormatter_format : Time -> string.

(** What a hook does when it is called with [(level, meta)], in the
    world it finds: the calls it makes on the logger, in order, and then
    whether it returns ([None]) or throws. *)
Variable hook_body : Hook -> LogLevel -> LogMeta -> World -> list HookAction * option Value.

(** How the event loop settles a promise made by user code, from the
    world it finds: the settlement, the world left and the events made
    on the way; [None] for a promise that stays pending. *)
Variable promise_fate : nat -> World -> option (Settlement * World * list Event).

(** The number of entries the loop over the hooks is run for. *)
Variable fuel : nat.

(** [new Date()]. *)
Definition newDate : M Time := fun w =>
  (Normal (wallclock (ticks w)),
   {| isEnabled := isEnabled w; entries := entries w; ticks := S (ticks w) |}, []).

Definition getTimestamp : M string :=
  let* now := newDate in
  ret ("[" +:+ timeFormatter_format now +:+ "]").

Definition console_log (prefix : string) (style : option string) (args : list Value) : M unit :=
  tell (ConsoleLog prefix style args).
Definition console_warn (label : string) (e : Value) : M unit :=
  tell (ConsoleWarn label e).
Definition console_groupCollapsed (title style : string) : M unit :=
  tell (ConsoleGroupCollapsed title style).
Definition console_groupEnd : M unit := tell ConsoleGroupEnd.

Definition printStyledLog (level : LogLevel) (style : option string)
    (showTimestamp : bool) (namespace : option string) (args : list Value) : M unit :=
  let parts := [] in
  let* parts := (if showTimestamp
                 then let* ts := getTimestamp in ret (parts ++ [ts])
                 else ret parts) in
  let parts := if truthy namespace then parts ++ ["[" +:+ ns_text namespace +:+ "]"] else parts in
  let parts := parts ++ ["[" +:+ toUpperCase (level_name level) +:+ "]"] in
  let prefix := "%c" +:+ join " " parts in
  console_log prefix style args.

(** [setEnabled(value)], with [value] already coerced by [Boolean]. *)
Definition setEnabled (value : bool) : M unit :=
  modify (fun w => {| isEnabled := value; entries := entries w; ticks := ticks w |}).

(** The closure [() => hooks.delete(callback)]; its result tells whether
    the callback was in the set. *)
Definition unsubscribe (callback : Hook) : M bool := fun w =>
  (Normal (set_has callback (entries w)),
   {| isEnabled := isEnabled w; entries := set_delete callback (entries w);
      ticks := ticks w |}, []).

Definition onLog (callback : Hook) : M (M bool) :=
  modify (fun w => {| isEnabled := isEnabled w; entries := set_add callback (entries w);
                      ticks := ticks w |}) >>
  ret (unsubscribe callback).

(** One call a hook makes on the logger, and all of them in order. *)
Definition run_action (a : HookAction) : M unit :=
  match a with
  | DoSetEnabled value => setEnabled value
  | DoOnLog callback => onLog callback >> ret tt
  | DoUnsubscribe callback => unsubscribe callback >> ret tt
  end.

Fixpoint run_actions (actions : list HookAction) : M unit :=
  match actions with
  | [] => ret tt
  | a :: rest => run_action a >> run_actions rest
  end.

(** Calling the function [hook] with [(level, meta)]. *)
Definition call_hook (hook : Hook) (level : LogLevel) (meta : LogMeta) : M unit :=
  tell (HookCall hook level meta) >>
  let* run := gets (hook_body hook level meta) in
  run_actions run.1 >>
  match run.2 with
  | None => ret tt
  | Some e => throw e
  end.

(** Calling the group callback. *)
Definition call_callback (callback : M Value) : M Value :=
  tell CallbackCall >> callback.

(** [createLogger(options)], called when the clock has been read [now]
    times: the constants of the new closure, and the world of its
    mutable variables. *)
Definition createLogger (options : LoggerOptions) (now : nat) : Logger * World :=
  let showTimestamp := default false (opt_showTimestamp options) in
  let namespace := opt_namespace options in
  let styles := default ∅ (opt_styles options) in
  let level := default "debug" (opt_level options) in
  let mergedStyles := styles ∪ (Some <$> DEFAULT_STYLES) in
  let minLevel := default (MinRank 0) (LOG_LEVELS_get level) in
  ({| showTimestamp := showTimestamp; namespace := namespace;
      mergedStyles := mergedStyles; minLevel := minLevel |},
   {| isEnabled := true; entries := []; ticks := now |}).

Definition emit (L : Logger) (level : LogLevel) (args : list Value) : M unit :=
  let* enabled := gets isEnabled in
  if negb enabled || js_lt (LOG_LEVELS !! level_name level) (minLevel L) then ret tt
  else
    printStyledLog level (js_get (mergedStyles L) (level_name level))
      (showTimestamp L) (namespace L) args >>
    for_of fuel 0 (fun hook =>
      tryCatch
        (let* now := newDate in
         call_hook hook level
           {| meta_timestamp := now; meta_namespace := namespace L;
              meta_level := level; meta_args := args |})
        (fun e => console_warn "[Logger] Hook error:" e)).

Definition group (L : Logger) (title : string) (callback : M Value) : M Value :=
  let* enabled := gets isEnabled in
  let shouldRender := enabled && js_ge (LOG_LEVELS !! "log") (minLevel L) in
  let parts := [] in
  let* parts := (if showTimestamp L
                 then let* ts := getTimestamp in ret (parts ++ [ts])
                 else ret parts) in
  let parts := if truthy (namespace L)
               then parts ++ ["[" +:+ ns_text (namespace L) +:+ "]"] else parts in
  let parts := parts ++ ["[GROUP] " +:+ title] in
  when shouldRender
    (console_groupCollapsed ("%c" +:+ join " " parts) "font-weight: bold; color: #888;") >>
  tryCatch
    (let* result := call_callback callback in
     match result with
     | VPromise p => ret (VPromise (PFinally p (GroupCloser shouldRender)))
     | _ => when shouldRender console_groupEnd >> ret result
     end)
    (fun err => when shouldRender console_groupEnd >> throw err).

(** The six emit functions of the returned object. *)
Definition logger_debug (L : Logger) (args : list Value) : M unit := emit L Debug args.
Definition logger_log (L : Logger) (args : list Value) : M unit := emit L Log args.
Definition logger_info (L : Logger) (args : list Value) : M unit := emit L Info args.
Definition logger_warn (L : Logger) (args : list Value) : M unit := emit L Warn args.
Definition logger_error (L : Logger) (args : list Value) : M unit := emit L Error args.
Definition logger_success (L : Logger) (args : list Value) : M unit := emit L Success args.

(** The emit function of a level. *)
Definition emit_fn (level : LogLevel) : Logger -> list Value -> M unit :=
  match level with
  | Debug => logger_debug | Log => logger_log | Info => logger_info
  | Warn => logger_warn | Error => logger_error | Success => logger_success
  end.

(** ** Promises *)

Definition run_finalizer (f : Finalizer) : M unit :=
  match f with
  | GroupCloser shouldRender => when shouldRender console_groupEnd
  end.

(** The event loop drives a promise to its settlement.  A promise made
    by [finally] waits for the one it was made from, runs its closure,
    and takes over the settlement (or the closure's error). *)
Fixpoint settle (p : Promise) (w : World) : option (Settlement * World * list Event) :=
  match p with
  | PNative ref => promise_fate ref w
  | PFinally q f =>
      match settle q w with
      | None => None
      | Some (s, w1, t1) =>
          match run_finalizer f w1 with
          | (Throw e, w2, t2) => Some (Rejected e, w2, t1 ++ t2)
          | (_, w2, t2) => Some (s, w2, t1 ++ t2)
          end
      end
  end.

(** ** Notions used to state the properties *)

(** The world after [k] more readings of the clock. *)
Definition advance (k : nat) (w : World) : World :=
  {| isEnabled := isEnabled w; entries := entries w; ticks := (ticks w + k)%nat |}.

(** The clock readings the prefix costs: one when timestamps are shown. *)
Definition stamp_cost (show : bool) : nat := if show then 1%nat else 0%nat.

(** The timestamp segment composed in world [w]. *)
Definition stamp (show : bool) (w : World) : list string :=
  if show then ["[" +:+ timeFormatter_format (wallclock (ticks w)) +:+ "]"] else [].

(** The namespace segment. *)
Definition ns_segment (ns : option string) : list string :=
  if truthy ns then ["[" +:+ ns_text ns +:+ "]"] else [].

(** The prefix of an emit call, and the title of a group. *)
Definition emit_prefix (L : Logger) (level : LogLevel) (w : World) : string :=
  "%c" +:+ join " " (stamp (showTimestamp L) w ++ ns_segment (namespace L)
                     ++ ["[" +:+ toUpperCase (level_name level) +:+ "]"]).

Definition group_title (L : Logger) (title : string) (w : World) : string :=
  "%c" +:+ join " " (stamp (showTimestamp L) w ++ ns_segment (namespace L)
                     ++ ["[GROUP] " +:+ title]).

(** The record the hook called at clock reading [n] receives. *)
Definition hook_meta (L : Logger) (level : LogLevel) (args : list Value) (n : nat) : LogMeta :=
  {| meta_timestamp := wallclock n; meta_namespace := namespace L;
     meta_level := level; meta_args := args |}.

(** What the dispatch site reports for a hook call that ended so. *)
Definition report (outcome : option Value) : list Event :=
  match outcome with
  | None => []
  | Some e => [ConsoleWarn "[Logger] Hook error:" e]
  end.

(** A hook that leaves the hook set alone: whenever it is called, the
    calls it makes on the logger are calls of [setEnabled]. *)
Definition keeps_set (h : Hook) : Prop :=
  forall level meta w a, a ∈ (hook_body h level meta w).1 -> exists value, a = DoSetEnabled value.

(** The gate of [group]: the logger is enabled and the rank of ['log']
    reaches the minimum. *)
Definition should_render (L : Logger) (w : World) : bool :=
  isEnabled w && js_ge (Some (rank Log)) (minLevel L).

(** The gate of [emit] for a level: the logger is enabled and the rank
    of the level is not below the minimum. *)
Definition lets_through (L : Logger) (level : LogLevel) (w : World) : bool :=
  isEnabled w && negb (js_lt (Some (rank level)) (minLevel L)).

(** The decoration calls of a group whose gate is [b]. *)
Definition opening (b : bool) (title : string) : list Event :=
  if b then [ConsoleGroupCollapsed title "font-weight: bold; color: #888;"] else [].

Definition closing (b : bool) : list Event :=
  if b then [ConsoleGroupEnd] else [].

(** The same logger with no namespace configured. *)
Definition without_namespace (L : Logger) : Logger :=
  {| showTimestamp := showTimestamp L; namespace := None;
     mergedStyles := mergedStyles L; minLevel := minLevel L |}.

(** The level tag of a prefix. *)
Definition level_tag (level : LogLevel) : string :=
  "[" +:+ toUpperCase (level_name level) +:+ "]".

(** The options with one more entry in the styles override. *)
Definition with_style (key token : string) (options : LoggerOptions) : LoggerOptions :=
  {| opt_showTimestamp := opt_showTimestamp options;
     opt_namespace := opt_namespace options;
     opt_styles := Some (<[key := Some token]> (default ∅ (opt_styles options)));
     opt_level := opt_level options |}.

(** ** The states a logger can be in *)

(** A call on the object [createLogger] returned. *)
Inductive Call : Type :=
| CallEmit (level : LogLevel) (args : list Value)
| CallSetEnabled (value : bool)
| CallOnLog (callback : Hook)
| CallUnsubscribe (callback : Hook).

Definition run_call (L : Logger) (c : Call) : M unit :=
  match c with
  | CallEmit level args => emit_fn level L args
  | CallSetEnabled value => setEnabled value
  | CallOnLog callback => onLog callback >> ret tt
  | CallUnsubscribe callback => unsubscribe callback >> ret tt
  end.

(** The worlds reached from the creation of the logger by such calls,
    one after the other or from inside a group callback; what the hooks
    do during an emit call is part of that call. *)
Inductive reachable (L : Logger) : World -> Prop :=
| reach_created (options : LoggerOptions) (now : nat) :
    (createLogger options now).1 = L ->
    reachable L (createLogger options now).2
| reach_call (c : Call) (w : World) :
    reachable L w -> reachable L (run_call L c w).1.2.

(** ** A sample environment and sample calls *)

Definition sample_clock (n : nat) : Time := 1000 * Z.of_nat n.

Definition sample_format (t : Time) : string :=
  if t <? 1000 then "12:00:00" else "12:00:01".

(** Hook 1 throws on every call; the other hooks return; none calls the
    logger. *)
Definition sample_hook_body (h : Hook) (l : LogLevel) (m : LogMeta) (w : World)
    : list HookAction * option Value :=
  if Nat.eqb h 1 then ([], Some (VStr "boom")) else ([], None).

(** Hooks that call the logger: hook 1 unsubscribes hook 3 and throws;
    hook 4 registers hook 2; hook 5, the first time it is called (it is
    then the first entry of the set), unsubscribes itself and registers
    itself again; hook 7 does so every time it is called, and throws;
    the other hooks return. *)
Definition meddling_hook_body (h : Hook) (l : LogLevel) (m : LogMeta) (w : World)
    : list HookAction * option Value :=
  match h with
  | 1%nat => ([DoUnsubscribe 3%nat], Some (VStr "boom"))
  | 4%nat => ([DoOnLog 2%nat], None)
  | 5%nat => if bool_decide (entries w !! 0%nat = Some (Some 5%nat))
             then ([DoUnsubscribe 5%nat; DoOnLog 5%nat], None)
             else ([], None)
  | 7%nat => ([DoUnsubscribe 7%nat; DoOnLog 7%nat], Some (VStr "boom"))
  | _ => ([], None)
  end.

(** Promise 0 is fulfilled with 7 after one more clock reading; the
    other promises stay pending. *)
Definition sample_fate (ref : nat) (w : World) : option (Settlement * World * list Event) :=
  match ref with
  | O => Some (Fulfilled (VNum 7),
               {| isEnabled := isEnabled w; entries := entries w; ticks := S (ticks w) |}, [])
  | S _ => None
  end.

Definition sample_fuel : nat := 16.

(** [createLogger({ namespace: 'App', showTimestamp: true, level: 'warn',
    styles: { error: 'color: red;' } })]. *)
Definition sample_options : LoggerOptions :=
  {| opt_showTimestamp := Some true; opt_namespace := Some "App";
     opt_styles := Some {["error" := Some "color: red;"]}; opt_level := Some "warn" |}.

Definition sample_logger : Logger :=
  {| showTimestamp := true; namespace := Some "App";
     mergedStyles := {["error" := Some "color: red;"]} ∪ (Some <$> DEFAULT_STYLES);
     minLevel := MinRank 3 |}.

(** A logger with default level and the empty string as namespace. *)
Definition blank_logger : Logger :=
  {| showTimestamp := true; namespace := Some "";
     mergedStyles := Some <$> DEFAULT_STYLES; minLevel := MinRank 0 |}.

Definition sample_world : World :=
  {| isEnabled := true; entries := [Some 2; Some 1; Some 3]%nat; ticks := 0 |}.




Definition looping_world : World :=
  {| isEnabled := true; entries := [Some 7%nat]; ticks := 0 |}.

(** [createLogger({ level: 'verbose' })], [createLogger({ level: 'info' })],
    [createLogger({ level: 'toString' })], [createLogger()] and
    [createLogger({ styles: { warn: undefined } })]. *)
Definition verbose_options : LoggerOptions :=
  {| opt_showTimestamp := None; opt_namespace := None;
     opt_styles := None; opt_level := Some "verbose" |}.

Definition info_options : LoggerOptions :=
  {| opt_showTimestamp := None; opt_namespace := None;
     opt_styles := None; opt_level := Some "info" |}.

Definition inherited_options : LoggerOptions :=
  {| opt_showTimestamp := None; opt_namespace := None;
     opt_styles := None; opt_level := Some "toString" |}.

Definition default_options : LoggerOptions :=
  {| opt_showTimestamp := None; opt_namespace := None;
     opt_styles := None; opt_level := None |}.


(** The loggers [createLogger] makes of [verbose_options] and of
    [info_options]. *)
Definition verbose_logger : Logger :=
  {| showTimestamp := false; namespace := None;
     mergedStyles := ∅ ∪ (Some <$> DEFAULT_STYLES); minLevel := MinRank 0 |}.

Definition info_logger : Logger :=
  {| showTimestamp := false; namespace := None;
     mergedStyles := ∅ ∪ (Some <$> DEFAULT_STYLES); minLevel := MinRank 2 |}.

(** The world of a new logger, and that world after [onLog] of hook 1. *)
Definition created_world : World :=
  {| isEnabled := true; entries := []; ticks := 0 |}.

Definition registered_world : World :=
  {| isEnabled := true; entries := [Some 1%nat]; ticks := 0 |}.

(** [async () => ...]: the callback hands back promise 0. *)
Definition deferred_callback : M Value :=
  ret (VPromise (PNative 0)).

(** A callback that hands back a promise-like object that is not a
    [Promise]. *)
Definition thenable_callback : M Value :=
  ret (VThenable 0).

(** [() => { logger.setEnabled(false); throw 'fail'; }]. *)
Definition failing_callback : M Value :=
  setEnabled false >> throw (VStr "fail").

(** [() => { logger.setEnabled(false); return 3; }]. *)
Definition toggling_callback : M Value :=
  setEnabled false >> ret (VNum 3).

(** [() => 3]. *)
Definition value_callback : M Value := ret (VNum 3).

(** The body of the loop of [emit] over the hooks. *)
Definition dispatch_body (L : Logger) (level : LogLevel) (args : list Value)
    : Hook -> M unit :=
  fun hook =>
    tryCatch
      (let* now := newDate in
       call_hook hook level
         {| meta_timestamp := now; meta_namespace := namespace L;
            meta_level := level; meta_args := args |})
      (fun e => console_warn "[Logger] Hook error:" e).

(** The world a hook call leaves: the clock was read once, and the
    hook made its calls on the logger. *)
Definition after_hook (L : Logger) (level : LogLevel) (args : list Value)
    (h : Hook) (w : World) : World :=
  (run_actions (hook_body h level (hook_meta L level args (ticks w)) (advance 1 w)).1
     (advance 1 w)).1.2.

(** The dispatch over the hooks [hs] from world [w], one call after the
    other: the world left and the events made.  It is what the loop
    does when the hooks leave the set alone. *)
Fixpoint quiet_dispatch (L : Logger) (level : LogLevel) (args : list Value)
    (hs : list Hook) (w : World) : World * list Event :=
  match hs with
  | [] => (w, [])
  | h :: rest =>
      let meta := hook_meta L level args (ticks w) in
      let '(w2, t) := quiet_dispatch L level args rest (after_hook L level args h w) in
      (w2, HookCall h level meta :: report (hook_body h level meta (advance 1 w)).2 ++ t)
  end.

(** ** Ranks and styles *)

Lemma LOG_LEVELS_rank (l : LogLevel) : LOG_LEVELS !! level_name l = Some (rank l).
Proof. destruct l; reflexivity. Qed.

Lemma rank_values :
  rank Debug = 0 /\ rank Log = 1 /\ rank Info = 2 /\
  rank Warn = 3 /\ rank Error = 4 /\ rank Success = 5.
Proof. repeat split; reflexivity. Qed.

Lemma rank_bounds (l : LogLevel) : 0 <= rank l <= 5.
Proof. destruct l; vm_compute; split; discriminate. Qed.

Lemma DEFAULT_STYLES_token (l : LogLevel) :
  DEFAULT_STYLES !! level_name l = Some (default_token l).
Proof. destruct l; reflexivity. Qed.

Lemma LOG_LEVELS_get_level (l : LogLevel) :
  LOG_LEVELS_get (level_name l) = Some (MinRank (rank l)).
Proof. destruct l; reflexivity. Qed.

Lemma js_lt_rank (l : LogLevel) (m : MinLevel) :
  js_lt (LOG_LEVELS !! level_name l) m = js_lt (Some (rank l)) m.
Proof. now rewrite LOG_LEVELS_rank. Qed.

Lemma js_ge_log (m : MinLevel) : js_ge (LOG_LEVELS !! "log") m = js_ge (Some (rank Log)) m.
Proof. reflexivity. Qed.

Lemma reaches_not_lt (r : Z) (m : MinLevel) : reaches r m -> js_lt (Some r) m = false.
Proof. destruct m as [y|name]; cbn; [intros H; apply Z.ltb_ge; lia | intros []]. Qed.

Lemma reaches_ge (r : Z) (m : MinLevel) : js_ge (Some r) m = true <-> reaches r m.
Proof.
  destruct m as [y|name]; cbn.
  - apply Z.leb_le.
  - split; [discriminate | intros []].
Qed.

Lemma below_lt (r : Z) (m : MinLevel) : js_lt (Some r) m = true <-> below r m.
Proof.
  destruct m as [y|name]; cbn.
  - apply Z.ltb_lt.
  - split; [discriminate | intros []].
Qed.

(** The merged style of a level: the value of the override where it has
    an own entry for the level, the default token otherwise. *)
Lemma merged_style (styles : gmap string (option string)) (l : LogLevel) :
  js_get (styles ∪ (Some <$> DEFAULT_STYLES)) (level_name l) =
  match styles !! level_name l with
  | Some value => value
  | None => Some (default_token l)
  end.
Proof.
  unfold js_get. rewrite lookup_union, lookup_fmap, DEFAULT_STYLES_token.
  now destruct (styles !! level_name l).
Qed.

(** ** Reading traces *)

Lemma prints_app (t1 t2 : list Event) : prints (t1 ++ t2) = prints t1 ++ prints t2.
Proof. apply List.filter_app. Qed.

Lemma hook_calls_app (t1 t2 : list Event) :
  hook_calls (t1 ++ t2) = hook_calls t1 ++ hook_calls t2.
Proof. apply omap_app. Qed.

Lemma invoked_app (t1 t2 : list Event) : invoked (t1 ++ t2) = invoked t1 ++ invoked t2.
Proof. apply omap_app. Qed.

Lemma warnings_app (t1 t2 : list Event) :
  warnings (t1 ++ t2) = warnings t1 ++ warnings t2.
Proof. apply omap_app. Qed.

Lemma callback_calls_app (t1 t2 : list Event) :
  callback_calls (t1 ++ t2) = (callback_calls t1 + callback_calls t2)%nat.
Proof. unfold callback_calls. now rewrite List.filter_app, length_app. Qed.

Lemma report_silent (outcome : option Value) :
  prints (report outcome) = [] /\ hook_calls (report outcome) = [] /\
  invoked (report outcome) = [].
Proof. now destruct outcome. Qed.

(** ** The clock and the prefix *)

Lemma advance_0 (w : World) : advance 0 w = w.
Proof. destruct w; unfold advance; simpl. now rewrite Nat.add_0_r. Qed.

Lemma advance_advance (a b : nat) (w : World) :
  advance b (advance a w) = advance (a + b) w.
Proof. unfold advance; simpl. f_equal. lia. Qed.

Lemma newDate_run (w : World) :
  newDate w = (Normal (wallclock (ticks w)), advance 1 w, []).
Proof. unfold newDate, advance. repeat f_equal. lia. Qed.

(** The two prefix compositions, as computations. *)
Lemma printStyledLog_run (level : LogLevel) (style : option string) (show : bool)
    (ns : option string) (args : list Value) (w : World) :
  printStyledLog level style show ns args w =
  (Normal tt, advance (stamp_cost show) w,
   [ConsoleLog ("%c" +:+ join " " (stamp show w ++ ns_segment ns
                                   ++ ["[" +:+ toUpperCase (level_name level) +:+ "]"]))
      style args]).
Proof.
  unfold printStyledLog, getTimestamp, console_log, tell, bind, ret, newDate,
    stamp, ns_segment, stamp_cost, advance.
  destruct w as [en hs n]. destruct show, (truthy ns); simpl;
    repeat f_equal; lia.
Qed.

(** ** The hook set *)

Lemma hooks_set_add (h : Hook) (s : list (option Hook)) :
  omap id (set_add h s) = if bool_decide (h ∈ omap id s) then omap id s else omap id s ++ [h].
Proof.
  unfold set_add, set_has.
  assert (Hiff : Some h ∈ s <-> h ∈ omap id s).
  { rewrite list_elem_of_omap. split.
    - intros Hin. exists (Some h). split; [exact Hin | reflexivity].
    - intros (e & Hin & He). cbn in He. now subst. }
  destruct (decide (Some h ∈ s)) as [Hin | Hout].
  - rewrite !bool_decide_eq_true_2; [reflexivity | now apply Hiff | exact Hin].
  - rewrite !bool_decide_eq_false_2;
      [now rewrite omap_app | now rewrite <- Hiff | exact Hout].
Qed.

Lemma hooks_set_delete (h : Hook) (s : list (option Hook)) :
  omap id (set_delete h s) = filter (fun x => x ≠ h) (omap id s).
Proof.
  unfold set_delete. induction s as [|e s IH]; [reflexivity|].
  cbn [fmap list_fmap]. destruct e as [x|]; cbn [omap list_omap id].
  - case_bool_decide as Hx.
    + injection Hx as ->. rewrite filter_cons.
      destruct (decide (h ≠ h)) as [Hne|_]; [now contradiction Hne | exact IH].
    + rewrite filter_cons.
      destruct (decide (x ≠ h)) as [_|Heq]; [now f_equal|].
      exfalso. apply Hx. f_equal. now apply dec_stable.
  - case_bool_decide; [discriminate | exact IH].
Qed.

Lemma set_has_hooks (h : Hook) (s : list (option Hook)) :
  set_has h s = bool_decide (h ∈ omap id s).
Proof.
  unfold set_has. apply bool_decide_ext. rewrite list_elem_of_omap. split.
  - intros Hin. exists (Some h). split; [exact Hin | reflexivity].
  - intros (e & Hin & He). cbn in He. now subst.
Qed.




Lemma hooks_set_add_NoDup (h : Hook) (s : list (option Hook)) :
  NoDup (omap id s) -> NoDup (omap id (set_add h s)).
Proof.
  intros Hs. rewrite hooks_set_add. case_bool_decide as Hin; [exact Hs|].
  apply NoDup_app. split; [exact Hs|]. split.
  - intros x Hx Hx'. apply list_elem_of_singleton in Hx'. now subst.
  - apply NoDup_singleton.
Qed.

Lemma hooks_set_delete_NoDup (h : Hook) (s : list (option Hook)) :
  NoDup (omap id s) -> NoDup (omap id (set_delete h s)).
Proof. intros Hs. rewrite hooks_set_delete. now apply NoDup_filter. Qed.

Lemma onLog_run (h : Hook) (w : World) :
  onLog h w =
  (Normal (unsubscribe h),
   {| isEnabled := isEnabled w; entries := set_add h (entries w); ticks := ticks w |}, []).
Proof. reflexivity. Qed.

(** ** What a hook call does *)

(** The calls a hook makes on the logger end normally, make no event and
    leave the clock alone. *)
Lemma run_action_normal (a : HookAction) (w : World) :
  exists w1, run_action a w = (Normal tt, w1, []) /\ ticks w1 = ticks w.
Proof. destruct a; cbn; eexists; split; reflexivity. Qed.

Lemma run_actions_normal (actions : list HookAction) (w : World) :
  exists w', run_actions actions w = (Normal tt, w', []) /\ ticks w' = ticks w.
Proof.
  revert w. induction actions as [|a rest IH]; intros w.
  - exists w. now split.
  - cbn [run_actions]. unfold bind.
    destruct (run_action_normal a w) as (w1 & -> & Ht1).
    destruct (IH w1) as (w2 & -> & Ht2).
    exists w2. split; [reflexivity | congruence].
Qed.

Lemma run_actions_run (actions : list HookAction) (w : World) :
  run_actions actions w = (Normal tt, (run_actions actions w).1.2, []) /\
  ticks (run_actions actions w).1.2 = ticks w.
Proof.
  destruct (run_actions_normal actions w) as (w' & -> & Ht). now split.
Qed.

Lemma run_actions_NoDup (actions : list HookAction) (w : World) :
  NoDup (hooks w) -> NoDup (hooks (run_actions actions w).1.2).
Proof.
  revert w. induction actions as [|a rest IH]; intros w Hw; [exact Hw|].
  cbn [run_actions]. unfold bind.
  assert (Ha : exists w1, run_action a w = (Normal tt, w1, []) /\ NoDup (hooks w1)).
  { destruct a; cbn; eexists; (split; [reflexivity|]); unfold hooks in *; cbn.
    - exact Hw.
    - now apply hooks_set_add_NoDup.
    - now apply hooks_set_delete_NoDup. }
  destruct Ha as (w1 & -> & Hw1). specialize (IH w1 Hw1).
  now destruct (run_actions rest w1) as [[r w2] t].
Qed.

(** A hook that only calls [setEnabled] leaves the entries as they are. *)
Lemma run_actions_keeps (actions : list HookAction) (w : World) :
  (forall a, a ∈ actions -> exists value, a = DoSetEnabled value) ->
  entries (run_actions actions w).1.2 = entries w.
Proof.
  revert w. induction actions as [|a rest IH]; intros w Hall; [reflexivity|].
  cbn [run_actions]. unfold bind.
  destruct (Hall a) as [value ->]; [now left|]. cbn [run_action setEnabled modify].
  specialize (IH {| isEnabled := value; entries := entries w; ticks := ticks w |}).
  destruct (run_actions rest _) as [[r w2] t]. cbn in IH |- *.
  apply IH. intros a Ha. apply Hall. now right.
Qed.

(** One turn of the loop: the clock is read, the hook is called, it
    makes its calls on the logger, and a throw is caught and reported.
    The turn always ends normally. *)
Lemma dispatch_body_run (L : Logger) (level : LogLevel) (args : list Value)
    (h : Hook) (w : World) :
  dispatch_body L level args h w =
  (Normal tt, after_hook L level args h w,
   HookCall h level (hook_meta L level args (ticks w))
   :: report (hook_body h level (hook_meta L level args (ticks w)) (advance 1 w)).2).
Proof.
  unfold dispatch_body, after_hook. unfold tryCatch. unfold bind at 1.
  rewrite newDate_run. fold (hook_meta L level args (ticks w)).
  set (meta := hook_meta L level args (ticks w)).
  unfold call_hook, bind at 1, tell. unfold bind at 1, gets.
  set (run := hook_body h level meta (advance 1 w)).
  unfold bind at 1. destruct (run_actions_run run.1 (advance 1 w)) as [-> _].
  destruct run.2 as [e|]; reflexivity.
Qed.

Lemma after_hook_ticks (L : Logger) (level : LogLevel) (args : list Value)
    (h : Hook) (w : World) :
  ticks (after_hook L level args h w) = S (ticks w).
Proof.
  unfold after_hook.
  destruct (run_actions_run
              (hook_body h level (hook_meta L level args (ticks w)) (advance 1 w)).1
              (advance 1 w)) as [_ ->].
  cbn. lia.
Qed.

Lemma after_hook_entries (L : Logger) (level : LogLevel) (args : list Value)
    (h : Hook) (w : World) :
  keeps_set h -> entries (after_hook L level args h w) = entries w.
Proof.
  intros Hk. unfold after_hook. rewrite run_actions_keeps; [reflexivity|].
  intros a Ha. exact (Hk _ _ _ _ Ha).
Qed.

Lemma after_hook_NoDup (L : Logger) (level : LogLevel) (args : list Value)
    (h : Hook) (w : World) :
  NoDup (hooks w) -> NoDup (hooks (after_hook L level args h w)).
Proof. intros Hw. unfold after_hook. now apply run_actions_NoDup. Qed.

(** ** The loop over the hooks *)

Lemma for_of_done (n index : nat) (body : Hook -> M unit) (w : World) :
  entries w !! index = None -> for_of n index body w = (Normal tt, w, []).
Proof. intros H. destruct n; cbn; now rewrite H. Qed.

Lemma for_of_out (index : nat) (body : Hook -> M unit) (w : World) (e : option Hook) :
  entries w !! index = Some e -> for_of 0 index body w = (OutOfFuel, w, []).
Proof. intros H. cbn. now rewrite H. Qed.

Lemma for_of_empty (n index : nat) (body : Hook -> M unit) (w : World) :
  entries w !! index = Some None ->
  for_of (S n) index body w = for_of n (S index) body w.
Proof. intros H. cbn. now rewrite H. Qed.

Lemma for_of_hook (n index : nat) (body : Hook -> M unit) (w : World) (h : Hook) :
  entries w !! index = Some (Some h) ->
  for_of (S n) index body w = (body h >> for_of n (S index) body) w.
Proof. intros H. cbn. now rewrite H. Qed.

(** Whatever the hooks do, the loop of [emit] does not throw, makes no
    styled print, calls the hooks with the emitted level, and keeps the
    hooks free of duplicates. *)
Lemma for_of_any (L : Logger) (level : LogLevel) (args : list Value)
    (n index : nat) (w : World) :
  ((for_of n index (dispatch_body L level args) w).1.1 = Normal tt \/
   (for_of n index (dispatch_body L level args) w).1.1 = OutOfFuel) /\
  prints (for_of n index (dispatch_body L level args) w).2 = [] /\
  Forall (fun c => c.1.2 = level /\ meta_level c.2 = level)
    (hook_calls (for_of n index (dispatch_body L level args) w).2) /\
  (NoDup (hooks w) -> NoDup (hooks (for_of n index (dispatch_body L level args) w).1.2)).
Proof.
  revert index w. induction n as [|n IH]; intros index w.
  - destruct (entries w !! index) as [e|] eqn:He.
    + rewrite (for_of_out index _ w e He). cbn. auto.
    + rewrite (for_of_done 0 index _ w He). cbn. auto.
  - destruct (entries w !! index) as [[h|]|] eqn:He.
    + rewrite (for_of_hook n index _ w h He). unfold bind.
      rewrite dispatch_body_run.
      specialize (IH (S index) (after_hook L level args h w)).
      destruct (for_of n (S index) (dispatch_body L level args)
                  (after_hook L level args h w)) as [[r w2] t].
      cbn [fst snd] in IH |- *. destruct IH as (Hr & Hp & Hl & Hn).
      destruct (report_silent
                  (hook_body h level (hook_meta L level args (ticks w)) (advance 1 w)).2)
        as (Hrp & Hrc & _).
      split; [exact Hr|]. split; [|split].
      * change (HookCall ?a ?b ?c :: ?l) with ([HookCall a b c] ++ l).
        rewrite <- app_assoc, !prints_app, Hrp, Hp. reflexivity.
      * change (HookCall ?a ?b ?c :: ?l) with ([HookCall a b c] ++ l).
        rewrite <- app_assoc, !hook_calls_app, Hrc. cbn. constructor; [now split | exact Hl].
      * intros Hw. apply Hn. now apply after_hook_NoDup.
    + rewrite (for_of_empty n index _ w He). apply IH.
    + rewrite (for_of_done (S n) index _ w He). cbn. auto.
Qed.

(** ** The dispatch when the hooks leave the set alone *)

Lemma quiet_dispatch_cons (L : Logger) (level : LogLevel) (args : list Value)
    (h : Hook) (rest : list Hook) (w : World) :
  quiet_dispatch L level args (h :: rest) w =
  ((quiet_dispatch L level args rest (after_hook L level args h w)).1,
   HookCall h level (hook_meta L level args (ticks w))
   :: report (hook_body h level (hook_meta L level args (ticks w)) (advance 1 w)).2
   ++ (quiet_dispatch L level args rest (after_hook L level args h w)).2).
Proof.
  cbn [quiet_dispatch].
  now destruct (quiet_dispatch L level args rest (after_hook L level args h w)).
Qed.



Lemma quiet_dispatch_ticks (L : Logger) (level : LogLevel) (args : list Value)
    (hs : list Hook) (w : World) :
  ticks (quiet_dispatch L level args hs w).1 = (ticks w + length hs)%nat.
Proof.
  revert w. induction hs as [|h rest IH]; intros w; [cbn; lia|].
  rewrite quiet_dispatch_cons. cbn [fst length]. rewrite IH, after_hook_ticks. lia.
Qed.

Lemma quiet_dispatch_entries (L : Logger) (level : LogLevel) (args : list Value)
    (hs : list Hook) (w : World) :
  (forall h, h ∈ hs -> keeps_set h) ->
  entries (quiet_dispatch L level args hs w).1 = entries w.
Proof.
  revert w. induction hs as [|h rest IH]; intros w Hk; [reflexivity|].
  rewrite quiet_dispatch_cons. cbn [fst]. rewrite IH.
  - apply after_hook_entries, Hk. now left.
  - intros h' Hin. apply Hk. now right.
Qed.





(** ** What an emit call does *)

Lemma emit_fn_emit (level : LogLevel) : emit_fn level = fun L => emit L level.
Proof. now destruct level. Qed.

(** An emit call that the gate stops. *)
Lemma emit_stopped (L : Logger) (level : LogLevel) (args : list Value) (w : World) :
  isEnabled w = false \/ js_lt (Some (rank level)) (minLevel L) = true ->
  emit L level args w = (Normal tt, w, []).
Proof.
  intros H. unfold emit, bind, gets. rewrite js_lt_rank.
  destruct H as [-> | ->]; [reflexivity|]. now rewrite orb_true_r.
Qed.

(** An emit call that passes the gate: the print, and then the loop. *)
Lemma emit_open (L : Logger) (level : LogLevel) (args : list Value) (w : World) :
  isEnabled w = true -> js_lt (Some (rank level)) (minLevel L) = false ->
  emit L level args w =
  ((for_of fuel 0 (dispatch_body L level args)
      (advance (stamp_cost (showTimestamp L)) w)).1.1,
   (for_of fuel 0 (dispatch_body L level args)
      (advance (stamp_cost (showTimestamp L)) w)).1.2,
   ConsoleLog (emit_prefix L level w) (js_get (mergedStyles L) (level_name level)) args
   :: (for_of fuel 0 (dispatch_body L level args)
         (advance (stamp_cost (showTimestamp L)) w)).2).
Proof.
  intros Hen Hlt. unfold emit.
  unfold bind at 1. unfold gets at 1. rewrite Hen, js_lt_rank, Hlt.
  cbn [negb orb]. unfold bind at 1. rewrite printStyledLog_run.
  change (for_of fuel 0 _) with (for_of fuel 0 (dispatch_body L level args)).
  now destruct (for_of fuel 0 (dispatch_body L level args)
                  (advance (stamp_cost (showTimestamp L)) w)) as [[r w'] t].
Qed.


(** The styled prints of an emit call, whatever the hooks do. *)
Lemma emit_prints (L : Logger) (level : LogLevel) (args : list Value) (w : World) :
  prints (emit L level args w).2 =
  if lets_through L level w
  then [ConsoleLog (emit_prefix L level w) (js_get (mergedStyles L) (level_name level))
          args]
  else [].
Proof.
  unfold lets_through. destruct (isEnabled w) eqn:Hen; cbn [andb].
  - destruct (js_lt (Some (rank level)) (minLevel L)) eqn:Hlt; cbn [negb].
    + rewrite emit_stopped by (right; exact Hlt). reflexivity.
    + rewrite (emit_open L level args w Hen Hlt). cbn [snd].
      change (prints (ConsoleLog ?p ?s ?a :: ?l)) with (ConsoleLog p s a :: prints l).
      destruct (for_of_any L level args fuel 0 (advance (stamp_cost (showTimestamp L)) w))
        as (_ & -> & _). reflexivity.
  - rewrite emit_stopped by (left; exact Hen). reflexivity.
Qed.

(** An emit call does not throw, whatever the hooks do. *)
Lemma emit_completion (L : Logger) (level : LogLevel) (args : list Value) (w : World) :
  (emit L level args w).1.1 = Normal tt \/ (emit L level args w).1.1 = OutOfFuel.
Proof.
  destruct (isEnabled w) eqn:Hen.
  - destruct (js_lt (Some (rank level)) (minLevel L)) eqn:Hlt.
    + rewrite emit_stopped by (right; exact Hlt). now left.
    + rewrite (emit_open L level args w Hen Hlt). cbn [fst].
      exact (proj1 (for_of_any L level args fuel 0 _)).
  - rewrite emit_stopped by (left; exact Hen). now left.
Qed.

(** An emit call keeps the hooks free of duplicates, whatever the hooks
    do. *)
Lemma emit_NoDup (L : Logger) (level : LogLevel) (args : list Value) (w : World) :
  NoDup (hooks w) -> NoDup (hooks (emit L level args w).1.2).
Proof.
  intros Hw. destruct (isEnabled w) eqn:Hen.
  - destruct (js_lt (Some (rank level)) (minLevel L)) eqn:Hlt.
    + now rewrite emit_stopped by (right; exact Hlt).
    + rewrite (emit_open L level args w Hen Hlt). cbn [fst snd].
      now apply (for_of_any L level args fuel 0).
  - now rewrite emit_stopped by (left; exact Hen).
Qed.

(** An emit call reads the logger through four values only. *)
Lemma emit_ext (L L' : Logger) (level : LogLevel) (args : list Value) (w : World) :
  showTimestamp L' = showTimestamp L -> namespace L' = namespace L ->
  minLevel L' = minLevel L ->
  mergedStyles L' !! level_name level = mergedStyles L !! level_name level ->
  emit L' level args w = emit L level args w.
Proof.
  intros H1 H2 H3 H4. unfold emit, js_get. now rewrite H1, H2, H3, H4.
Qed.

(** ** What a group call does *)

(** The whole of [group], by what the callback does in the world it is
    called in.  The gate is the one of the world at the call: the world
    the callback leaves plays no part in the closing. *)
Lemma group_run (L : Logger) (title : string) (callback : M Value) (w : World) :
  group L title callback w =
  let gate := should_render L w in
  let shown := opening gate (group_title L title w) in
  match callback (advance (stamp_cost (showTimestamp L)) w) with
  | (Normal (VPromise p), w2, t) =>
      (Normal (VPromise (PFinally p (GroupCloser gate))), w2, shown ++ CallbackCall :: t)
  | (Normal v, w2, t) => (Normal v, w2, shown ++ CallbackCall :: t ++ closing gate)
  | (Throw e, w2, t) => (Throw e, w2, shown ++ CallbackCall :: t ++ closing gate)
  | (OutOfFuel, w2, t) => (OutOfFuel, w2, shown ++ CallbackCall :: t)
  end.
Proof.
  unfold group, should_render. rewrite js_ge_log.
  unfold bind at 1. unfold gets at 1.
  set (gate := isEnabled w && js_ge (Some (rank Log)) (minLevel L)).
  assert (Hparts :
    (if showTimestamp L
     then let* ts := getTimestamp in ret ([] ++ [ts])
     else ret []) w
    = (Normal (stamp (showTimestamp L) w),
       advance (stamp_cost (showTimestamp L)) w, [])).
  { unfold stamp, stamp_cost, getTimestamp, bind, ret.
    destruct (showTimestamp L).
    - now rewrite newDate_run.
    - now rewrite advance_0. }
  unfold bind at 1. rewrite Hparts.
  set (w1 := advance (stamp_cost (showTimestamp L)) w).
  assert (Htitle :
    "%c" +:+ join " "
      ((if truthy (namespace L)
        then stamp (showTimestamp L) w ++ ["[" +:+ ns_text (namespace L) +:+ "]"]
        else stamp (showTimestamp L) w) ++ ["[GROUP] " +:+ title])
    = group_title L title w).
  { unfold group_title, ns_segment. destruct (truthy (namespace L)).
    - now rewrite <- app_assoc.
    - reflexivity. }
  rewrite Htitle. cbn zeta.
  unfold bind at 1.
  assert (Hopen : when gate
      (console_groupCollapsed (group_title L title w) "font-weight: bold; color: #888;") w1
      = (Normal tt, w1, opening gate (group_title L title w))).
  { unfold when, opening, console_groupCollapsed, tell, ret. now destruct gate. }
  rewrite Hopen.
  assert (Hclose : forall w', when gate console_groupEnd w' = (Normal tt, w', closing gate)).
  { intros w'. unfold when, closing, console_groupEnd, tell, ret. now destruct gate. }
  unfold tryCatch, call_callback, bind, tell. cbn [app].
  destruct (callback w1) as [[[v|e|] w2] t]; cbn [app].
  - destruct v; rewrite ?Hclose; unfold ret; cbn [app]; rewrite ?app_nil_r; reflexivity.
  - rewrite Hclose. unfold throw. cbn [app]. rewrite app_nil_r. reflexivity.
  - reflexivity.
Qed.

(** [group] on a callback that returns a value that is no promise. *)
Lemma group_run_value (L : Logger) (title : string) (callback : M Value)
    (w w2 : World) (v : Value) (t : list Event) :
  callback (advance (stamp_cost (showTimestamp L)) w) = (Normal v, w2, t) ->
  (forall p, v ≠ VPromise p) ->
  group L title callback w =
    (Normal v, w2,
     opening (should_render L w) (group_title L title w)
     ++ CallbackCall :: t ++ closing (should_render L w)).
Proof.
  intros Hcb Hv. rewrite group_run, Hcb. cbn zeta.
  destruct v; try reflexivity. now contradiction (Hv p).
Qed.

Lemma opening_no_callback (b : bool) (title : string) :
  callback_calls (opening b title) = 0%nat.
Proof. now destruct b. Qed.

Lemma closing_no_callback (b : bool) : callback_calls (closing b) = 0%nat.
Proof. now destruct b. Qed.

Lemma should_render_spec (L : Logger) (w : World) :
  should_render L w = true <-> isEnabled w = true /\ reaches (rank Log) (minLevel L).
Proof.
  unfold should_render. rewrite andb_true_iff, reaches_ge. reflexivity.
Qed.

Lemma should_render_advance (L : Logger) (k : nat) (w : World) :
  should_render L (advance k w) = should_render L w.
Proof. reflexivity. Qed.

Lemma opening_silent (b : bool) (title : string) :
  prints (opening b title) = [] /\ warnings (opening b title) = [] /\
  invoked (opening b title) = [].
Proof. now destruct b. Qed.

Lemma closing_silent (b : bool) :
  prints (closing b) = [] /\ warnings (closing b) = [] /\ invoked (closing b) = [].
Proof. now destruct b. Qed.

Lemma settle_finally (p : Promise) (b : bool) (w : World) :
  settle (PFinally p (GroupCloser b)) w =
  match settle p w with
  | None => None
  | Some (s, w1, t1) => Some (s, w1, t1 ++ closing b)
  end.
Proof.
  cbn [settle]. destruct (settle p w) as [[[s w1] t1]|]; [|reflexivity].
  unfold run_finalizer, when, closing, console_groupEnd, tell, ret.
  now destruct b.
Qed.

Lemma ns_segment_empty : ns_segment (Some "") = ns_segment None.
Proof. reflexivity. Qed.

Lemma string_append_assoc (a b c : string) : (a +:+ b) +:+ c = a +:+ b +:+ c.
Proof.
  induction a as [|x a IH]; [reflexivity|].
  change (String x ((a +:+ b) +:+ c) = String x (a +:+ b +:+ c)). now rewrite IH.
Qed.

(** ** The hook set stays a set *)

(** In every reachable world the hooks are a set, whatever the hooks
    did during the emit calls. *)
Lemma reachable_NoDup (L : Logger) (w : World) : reachable L w -> NoDup (hooks w).
Proof.
  induction 1 as [options now _ | c w _ IH].
  - cbn. constructor.
  - destruct c as [level args | value | callback | callback]; cbn [run_call].
    + rewrite emit_fn_emit. cbn beta. now apply emit_NoDup.
    + exact IH.
    + unfold hooks. cbn. now apply hooks_set_add_NoDup.
    + unfold hooks. cbn. now apply hooks_set_delete_NoDup.
Qed.

(** What [createLogger] returns, field by field. *)
Lemma createLogger_fields (options : LoggerOptions) (now : nat) (w1 : World) (L : Logger) :
  createLogger options now = (L, w1) ->
  showTimestamp L = default false (opt_showTimestamp options) /\
  namespace L = opt_namespace options /\
  mergedStyles L = default ∅ (opt_styles options) ∪ (Some <$> DEFAULT_STYLES) /\
  minLevel L = default (MinRank 0) (LOG_LEVELS_get (default "debug" (opt_level options))) /\
  isEnabled w1 = true /\ entries w1 = [] /\ ticks w1 = now.
Proof.
  unfold createLogger. intros H. injection H as <- <-. repeat split.
Qed.

(** ** The claims on emit *)


(** C2.  For every logger and every level: when the logger is disabled,
    or the rank of the level is strictly below the configured minimum,
    the emit function of that level does nothing: no event at all (no
    print call, no hook call), and the world is left as it was. *)
Theorem emit_below_gate (L : Logger) (level : LogLevel) (args : list Value) (w : World) :
  isEnabled w = false \/ below (rank level) (minLevel L) ->
  emit_fn level L args w = (Normal tt, w, []) /\
  prints (emit_fn level L args w).2 = [] /\
  invoked (emit_fn level L args w).2 = [].
Proof.
  intros H. rewrite emit_fn_emit. cbn beta.
  assert (H' : isEnabled w = false \/ js_lt (Some (rank level)) (minLevel L) = true).
  { destruct H as [H | H]; [now left | right; now apply below_lt]. }
  rewrite (emit_stopped L level args w H'). repeat split.
Qed.


(** ** The claims on group *)

(** C4.  For every call of group, whatever the enabled flag and the
    minimum level: the callback is called exactly once (the decoration
    before and after it holds no call of the callback), in the world the
    prefix composition leaves, and the world and the events of that one
    call are those of the group call. *)
Theorem group_calls_callback_once (L : Logger) (title : string) (callback : M Value)
    (w : World) :
  exists r before after,
    group L title callback w =
      (r, (callback (advance (stamp_cost (showTimestamp L)) w)).1.2,
       before ++ CallbackCall
         :: (callback (advance (stamp_cost (showTimestamp L)) w)).2 ++ after) /\
    callback_calls before = 0%nat /\
    callback_calls after = 0%nat /\
    callback_calls (group L title callback w).2 =
      S (callback_calls (callback (advance (stamp_cost (showTimestamp L)) w)).2).
Proof.
  rewrite group_run. cbn zeta.
  assert (Hopen : forall (r : Completion Value) (w2 : World) (t : list Event),
    exists r' before after,
      (r, w2, opening (should_render L w) (group_title L title w) ++ CallbackCall :: t) =
      (r', w2, before ++ CallbackCall :: t ++ after) /\
      callback_calls before = 0%nat /\ callback_calls after = 0%nat /\
      callback_calls
        (opening (should_render L w) (group_title L title w) ++ CallbackCall :: t)
      = S (callback_calls t)).
  { intros r w2 t.
    exists r, (opening (should_render L w) (group_title L title w)), [].
    rewrite app_nil_r. repeat split.
    - apply opening_no_callback.
    - change (CallbackCall :: t) with ([CallbackCall] ++ t).
      rewrite !callback_calls_app, opening_no_callback. reflexivity. }
  assert (Hclosed : forall (r : Completion Value) (w2 : World) (t : list Event),
    exists r' before after,
      (r, w2, opening (should_render L w) (group_title L title w)
              ++ CallbackCall :: t ++ closing (should_render L w)) =
      (r', w2, before ++ CallbackCall :: t ++ after) /\
      callback_calls before = 0%nat /\ callback_calls after = 0%nat /\
      callback_calls
        (opening (should_render L w) (group_title L title w)
         ++ CallbackCall :: t ++ closing (should_render L w))
      = S (callback_calls t)).
  { intros r w2 t.
    exists r, (opening (should_render L w) (group_title L title w)),
      (closing (should_render L w)).
    repeat split.
    - apply opening_no_callback.
    - apply closing_no_callback.
    - change (CallbackCall :: t ++ ?c) with ([CallbackCall] ++ t ++ c).
      rewrite !callback_calls_app, opening_no_callback, closing_no_callback.
      cbn. lia. }
  destruct (callback (advance (stamp_cost (showTimestamp L)) w)) as [[[v|e|] w2] t];
    cbn [fst snd].
  - destruct v; solve [apply Hclosed | apply Hopen].
  - apply Hclosed.
  - apply Hopen.
Qed.

(** C5, as amended.  For every call of group whose callback returns a
    value that is a [Promise]: group returns normally the promise that
    [finally] derives from it, and has then made no closing call (its
    events end with those of the callback); whenever the callback's
    promise settles, the returned promise settles with the same outcome,
    fulfilled or rejected, and the closing call, made exactly when the
    decoration was opened, comes after the events of that settlement;
    while the callback's promise stays pending, so does the returned
    one, and nothing is closed. *)
Theorem group_deferred (L : Logger) (title : string) (callback : M Value)
    (w w2 : World) (p : Promise) (t : list Event) :
  callback (advance (stamp_cost (showTimestamp L)) w) = (Normal (VPromise p), w2, t) ->
  group L title callback w =
    (Normal (VPromise (PFinally p (GroupCloser (should_render L w)))), w2,
     opening (should_render L w) (group_title L title w) ++ CallbackCall :: t) /\
  (forall w3 : World,
     settle (PFinally p (GroupCloser (should_render L w))) w3 =
     match settle p w3 with
     | None => None
     | Some (s, w4, t4) => Some (s, w4, t4 ++ closing (should_render L w))
     end) /\
  length (opening (should_render L w) (group_title L title w))
    = length (closing (should_render L w)).
Proof.
  intros Hcb. rewrite group_run, Hcb. cbn zeta. split; [reflexivity|].
  split; [intros w3; apply settle_finally|].
  now destruct (should_render L w).
Qed.

(** C6.  For every call of group whose callback throws: group throws the
    very same value, and before that the decoration is closed exactly
    when it was opened: the events of the call are the opening, the
    callback's own, and the closing, so no group stays open. *)
Theorem group_callback_throws (L : Logger) (title : string) (callback : M Value)
    (w w2 : World) (e : Value) (t : list Event) :
  callback (advance (stamp_cost (showTimestamp L)) w) = (Throw e, w2, t) ->
  group L title callback w =
    (Throw e, w2,
     opening (should_render L w) (group_title L title w)
     ++ CallbackCall :: t ++ closing (should_render L w)) /\
  length (opening (should_render L w) (group_title L title w))
    = length (closing (should_render L w)).
Proof.
  intros Hcb. rewrite group_run, Hcb. cbn zeta. split; [reflexivity|].
  now destruct (should_render L w).
Qed.

(** C7.  For every call of group and every callback: the decoration is
    opened if and only if, in the world at the call, the logger is
    enabled and the rank of ['log'] is at least the configured minimum;
    the closing follows that same gate, whatever the callback emits and
    whatever it does to the logger; it is left to the promise when the
    callback returns one, and there is none when the callback does not
    return. *)
Theorem group_gate (L : Logger) (title : string) (callback : M Value) (w : World) :
  exists r w2 t,
    callback (advance (stamp_cost (showTimestamp L)) w) = (r, w2, t) /\
    (should_render L w = true <->
     isEnabled w = true /\ reaches (rank Log) (minLevel L)) /\
    opening (should_render L w) (group_title L title w) =
      (if should_render L w
       then [ConsoleGroupCollapsed (group_title L title w) "font-weight: bold; color: #888;"]
       else []) /\
    (group L title callback w).2 =
      opening (should_render L w) (group_title L title w)
      ++ CallbackCall :: t
      ++ match r with
         | Normal (VPromise _) => []
         | OutOfFuel => []
         | _ => closing (should_render L w)
         end.
Proof.
  rewrite group_run. cbn zeta.
  destruct (callback (advance (stamp_cost (showTimestamp L)) w)) as [[r w2] t].
  exists r, w2, t. split; [reflexivity|]. split; [apply should_render_spec|].
  split; [reflexivity|].
  destruct r as [v|e|]; [destruct v| |]; cbn [snd]; rewrite ?app_nil_r; reflexivity.
Qed.

(** ** The claims on the configuration and on the hook registry *)



(** ** The claim on the empty namespace *)

(** C10.  For every logger whose namespace is the empty string: the
    prefix of an emit call is made of the timestamp segment, when
    shown, and the level tag, and the title of a rendered group of the
    timestamp segment and the group tag, with no namespace segment in
    either; the styled print calls of every emit call, and the whole of
    every group call, are those of the same logger with no namespace. *)
Theorem empty_namespace_is_absent (L : Logger) :
  namespace L = Some "" ->
  (forall level args w, isEnabled w = true -> reaches (rank level) (minLevel L) ->
     prints (emit_fn level L args w).2 =
     [ConsoleLog ("%c" +:+ join " " (stamp (showTimestamp L) w ++ [level_tag level]))
        (js_get (mergedStyles L) (level_name level)) args]) /\
  (forall level args w,
     prints (emit_fn level L args w).2 =
     prints (emit_fn level (without_namespace L) args w).2) /\
  (forall title callback w, should_render L w = true ->
     exists rest,
       (group L title callback w).2 =
       ConsoleGroupCollapsed
         ("%c" +:+ join " " (stamp (showTimestamp L) w ++ ["[GROUP] " +:+ title]))
         "font-weight: bold; color: #888;" :: rest) /\
  (forall title callback w,
     group L title callback w = group (without_namespace L) title callback w).
Proof.
  intros Hns.
  assert (Hprefix : forall level w,
    emit_prefix L level w =
    "%c" +:+ join " " (stamp (showTimestamp L) w ++ [level_tag level])).
  { intros level w. unfold emit_prefix. now rewrite Hns, ns_segment_empty. }
  assert (Hprefix0 : forall level w,
    emit_prefix (without_namespace L) level w = emit_prefix L level w).
  { intros level w. unfold emit_prefix. now rewrite Hns, ns_segment_empty. }
  assert (Htitle : forall title w,
    group_title L title w =
    "%c" +:+ join " " (stamp (showTimestamp L) w ++ ["[GROUP] " +:+ title])).
  { intros title w. unfold group_title. now rewrite Hns, ns_segment_empty. }
  repeat match goal with |- _ /\ _ => split end.
  - intros level args w Hen Hrank. rewrite emit_fn_emit. cbn beta.
    rewrite emit_prints. unfold lets_through.
    now rewrite Hen, (reaches_not_lt _ _ Hrank), Hprefix.
  - intros level args w. rewrite emit_fn_emit. cbn beta.
    rewrite !emit_prints. unfold lets_through.
    cbn [without_namespace minLevel mergedStyles]. now rewrite Hprefix0.
  - intros title callback w Hgate. rewrite group_run. cbn zeta.
    rewrite Hgate, Htitle. cbn [opening].
    destruct (callback (advance (stamp_cost (showTimestamp L)) w)) as [[[v|e|] w2] t];
      [destruct v| |]; cbn [snd app]; eexists; reflexivity.
  - intros title callback w. rewrite !group_run. cbn zeta.
    unfold group_title, should_render. cbn [without_namespace showTimestamp namespace minLevel].
    now rewrite Hns, ns_segment_empty.
Qed.

(** ** More on the configuration *)

(** Every rank in [LOG_LEVELS] lies between 0 and 5. *)
Lemma LOG_LEVELS_bounds (name : string) (r : Z) :
  LOG_LEVELS !! name = Some r -> 0 <= r <= 5.
Proof.
  unfold LOG_LEVELS. intros H.
  repeat (apply lookup_insert_Some in H as [[_ <-] | [_ H]]; [lia|]).
  rewrite lookup_empty in H. discriminate H.
Qed.

(** The rank of the highest level is below no minimum. *)
Lemma success_not_below (options : LoggerOptions) (now : nat) :
  js_lt (Some (rank Success)) (minLevel (createLogger options now).1) = false.
Proof.
  cbn [createLogger fst minLevel]. unfold LOG_LEVELS_get.
  destruct (LOG_LEVELS !! default "debug" (opt_level options)) as [r|] eqn:Hr.
  - cbn. apply Z.ltb_ge. pose proof (LOG_LEVELS_bounds _ r Hr).
    change (rank Success) with 5. lia.
  - now destruct (bool_decide (default "debug" (opt_level options) ∈ Object_prototype)).
Qed.

(** X1.  A configured level that is neither one of the six names nor
    the name of an inherited member is no error: the minimum rank falls
    back to 0, and the enabled logger prints every level. *)
Theorem unknown_level_prints_all (options : LoggerOptions) (now : nat) (w1 : World)
    (L : Logger) (name : string) :
  createLogger options now = (L, w1) ->
  opt_level options = Some name ->
  LOG_LEVELS_get name = None ->
  minLevel L = MinRank 0 /\
  forall level args w, isEnabled w = true ->
    prints (emit_fn level L args w).2 =
    [ConsoleLog (emit_prefix L level w) (js_get (mergedStyles L) (level_name level)) args].
Proof.
  intros Hc Hl Hn. apply createLogger_fields in Hc as (_ & _ & _ & Hmin & _).
  rewrite Hl in Hmin. cbn [from_option id] in Hmin. rewrite Hn in Hmin.
  cbn [from_option id] in Hmin.
  split; [exact Hmin|]. intros level args w Hen. rewrite emit_fn_emit. cbn beta.
  rewrite emit_prints. unfold lets_through. rewrite Hen, Hmin. cbn [andb js_lt].
  destruct (Z.ltb_spec (rank level) 0) as [Hlt | _]; [|reflexivity].
  pose proof (rank_bounds level). lia.
Qed.

(** X2.  Whatever the options, no configuration filters the level of
    highest rank: an enabled logger prints every ['success'] call.  A
    minimum that is a rank lies between 0 and 5. *)
Theorem highest_level_never_filtered (options : LoggerOptions) (now : nat) (w1 : World)
    (L : Logger) :
  createLogger options now = (L, w1) ->
  (forall r, minLevel L = MinRank r -> 0 <= r <= 5) /\
  forall args w, isEnabled w = true ->
    prints (emit_fn Success L args w).2 =
    [ConsoleLog (emit_prefix L Success w) (js_get (mergedStyles L) "success") args].
Proof.
  intros Hc. pose proof (success_not_below options now) as Hs. rewrite Hc in Hs.
  cbn [fst] in Hs. apply createLogger_fields in Hc as (_ & _ & _ & Hmin & _). split.
  - intros r Hr. rewrite Hr in Hmin. unfold LOG_LEVELS_get in Hmin.
    destruct (LOG_LEVELS !! default "debug" (opt_level options)) as [r'|] eqn:Hr'.
    + cbn in Hmin. injection Hmin as ->. exact (LOG_LEVELS_bounds _ r' Hr').
    + destruct (bool_decide (default "debug" (opt_level options) ∈ Object_prototype));
        cbn in Hmin; [discriminate Hmin | injection Hmin as ->; lia].
  - intros args w Hen. rewrite emit_fn_emit. cbn beta.
    rewrite emit_prints. unfold lets_through. now rewrite Hen, Hs.
Qed.

(** X3.  A logger created with minimum level [l0] and left enabled
    prints a call of level [l] exactly when the rank of [l0] is at most
    the rank of [l]; when it is not, the call does nothing at all. *)
Theorem configured_level_filters (options : LoggerOptions) (now : nat) (w1 : World)
    (L : Logger) (l0 : LogLevel) :
  createLogger options now = (L, w1) ->
  opt_level options = Some (level_name l0) ->
  forall level args w, isEnabled w = true ->
    length (prints (emit_fn level L args w).2) =
      (if rank l0 <=? rank level then 1%nat else 0%nat) /\
    (rank level < rank l0 -> emit_fn level L args w = (Normal tt, w, [])).
Proof.
  intros Hc Hl level args w Hen.
  apply createLogger_fields in Hc as (_ & _ & _ & Hmin & _).
  rewrite Hl in Hmin. cbn [from_option id] in Hmin. rewrite LOG_LEVELS_get_level in Hmin.
  cbn [from_option id] in Hmin. rewrite emit_fn_emit. cbn beta. split.
  - rewrite emit_prints. unfold lets_through. rewrite Hen, Hmin. cbn [andb js_lt].
    destruct (Z.leb_spec (rank l0) (rank level)) as [Hle | Hlt].
    + now replace (rank level <? rank l0) with false by (symmetry; apply Z.ltb_ge; lia).
    + now replace (rank level <? rank l0) with true by (symmetry; apply Z.ltb_lt; lia).
  - intros Hlt. apply emit_stopped. right. rewrite Hmin. cbn. apply Z.ltb_lt. lia.
Qed.

(** X4.  With no level configured, the first call of any of the six
    emit functions of a new logger makes one styled print and nothing
    else, whose style argument is the value the override has for the
    level, or the default token where it has none; the new logger is
    enabled, lets every level through and has no hook. *)
Theorem fresh_logger_prints (options : LoggerOptions) (level : LogLevel)
    (args : list Value) (now : nat) :
  opt_level options = None ->
  exists prefix w',
    emit_fn level (createLogger options now).1 args (createLogger options now).2 =
    (Normal tt, w',
     [ConsoleLog prefix
        (match default ∅ (opt_styles options) !! level_name level with
         | Some value => value
         | None => Some (default_token level)
         end) args]) /\
    isEnabled w' = true /\ hooks w' = [].
Proof.
  intros Hl. rewrite emit_fn_emit. cbn beta.
  destruct (createLogger options now) as [L w1] eqn:Hc. cbn [fst snd].
  destruct (createLogger_fields options now w1 L Hc)
    as (_ & _ & Hst & Hmin & Hen & Hent & _).
  rewrite Hl in Hmin. change (minLevel L = MinRank 0) in Hmin.
  assert (Hlt : js_lt (Some (rank level)) (minLevel L) = false).
  { rewrite Hmin. cbn. apply Z.ltb_ge. pose proof (rank_bounds level). lia. }
  rewrite (emit_open L level args w1 Hen Hlt).
  rewrite for_of_done by (cbn; now rewrite Hent).
  cbn [fst snd]. rewrite Hst, merged_style.
  eexists _, _. split; [reflexivity|]. split; [exact Hen|].
  unfold hooks. cbn. now rewrite Hent.
Qed.


(** X6.  An entry of the styles override under a key that is no level
    name is ignored: the logger created with it emits exactly as the
    logger created without it. *)
Theorem unknown_style_key_ignored (options : LoggerOptions) (key token : string)
    (now : nat) (w1 w1' : World) (L L' : Logger) :
  (forall l, key ≠ level_name l) ->
  createLogger options now = (L, w1) ->
  createLogger (with_style key token options) now = (L', w1') ->
  w1' = w1 /\
  forall level args w, emit_fn level L' args w = emit_fn level L args w.
Proof.
  intros Hkey Hc Hc'.
  assert (Hw : w1' = w1).
  { unfold createLogger in Hc, Hc'. injection Hc as _ <-. injection Hc' as _ <-.
    reflexivity. }
  apply createLogger_fields in Hc as (Hs & Hn & Hst & Hmin & _).
  apply createLogger_fields in Hc' as (Hs' & Hn' & Hst' & Hmin' & _).
  split; [exact Hw|]. intros level args w. rewrite emit_fn_emit. cbn beta.
  apply emit_ext.
  - now rewrite Hs, Hs'.
  - now rewrite Hn, Hn'.
  - now rewrite Hmin, Hmin'.
  - rewrite Hst, Hst'. cbn [with_style opt_styles from_option id].
    rewrite !lookup_union. rewrite lookup_insert_ne by apply Hkey. reflexivity.
Qed.

(** ** More on emit *)

(** X7.  An emit call never completes by throwing, whatever the hooks
    do and whatever they throw; and a call that the gate stops does
    nothing at all. *)
Theorem emit_never_throws (L : Logger) (level : LogLevel) (args : list Value)
    (w : World) :
  (forall e, (emit_fn level L args w).1.1 ≠ Throw e) /\
  (lets_through L level w = false -> emit_fn level L args w = (Normal tt, w, [])).
Proof.
  rewrite emit_fn_emit. cbn beta. split.
  - intros e He. destruct (emit_completion L level args w) as [H | H];
      rewrite H in He; discriminate He.
  - unfold lets_through. intros Hgate. apply emit_stopped.
    destruct (isEnabled w); [right | now left].
    cbn in Hgate. now apply negb_false_iff in Hgate.
Qed.



(** X10.  With a namespace that is not empty, the prefix of an emit
    call is ["%c"], then the bracketed time when timestamps are shown,
    the bracketed namespace and the bracketed upper-case level name,
    with one space between two segments. *)
Theorem prefix_with_namespace (L : Logger) (ns : string) (level : LogLevel)
    (args : list Value) (w : World) :
  namespace L = Some ns -> ns ≠ "" ->
  isEnabled w = true -> reaches (rank level) (minLevel L) ->
  prints (emit_fn level L args w).2 =
  [ConsoleLog
     ("%c" +:+
      (if showTimestamp L
       then ("[" +:+ timeFormatter_format (wallclock (ticks w)) +:+ "]") +:+ " "
       else "") +:+
      ("[" +:+ ns +:+ "]") +:+ " " +:+
      ("[" +:+ toUpperCase (level_name level) +:+ "]"))
     (js_get (mergedStyles L) (level_name level)) args].
Proof.
  intros Hns Hne Hen Hrank. rewrite emit_fn_emit. cbn beta.
  rewrite emit_prints. unfold lets_through.
  rewrite Hen, (reaches_not_lt _ _ Hrank). cbn [andb negb].
  unfold emit_prefix, stamp, ns_segment. rewrite Hns.
  destruct ns as [|c ns']; [now contradiction Hne|].
  cbn [truthy ns_text]. destruct (showTimestamp L);
    [rewrite string_append_assoc|]; reflexivity.
Qed.

(** ** More on group *)

(** X11.  When the callback returns a value that is no promise, group
    returns that value, and its events are those of the callback between
    one opening and one closing call when the gate is open, and those of
    the callback alone when it is not. *)
Theorem group_returns_value (L : Logger) (title : string) (callback : M Value)
    (w w2 : World) (v : Value) (t : list Event) :
  callback (advance (stamp_cost (showTimestamp L)) w) = (Normal v, w2, t) ->
  (forall p, v ≠ VPromise p) ->
  group L title callback w =
    (Normal v, w2,
     (if should_render L w
      then [ConsoleGroupCollapsed (group_title L title w) "font-weight: bold; color: #888;"]
      else [])
     ++ CallbackCall :: t
     ++ (if should_render L w then [ConsoleGroupEnd] else [])).
Proof. intros Hcb Hv. exact (group_run_value L title callback w w2 v t Hcb Hv). Qed.

(** X12.  Groups nest: a group whose callback is itself a group call
    of the same logger gives the events of the inner group, opening and
    closing included, between the opening and the closing of the outer
    one, and returns the value of the inner callback. *)
Theorem nested_groups_bracket (L : Logger) (outer inner : string) (callback : M Value)
    (w w2 : World) (v : Value) (t : list Event) :
  callback (advance (stamp_cost (showTimestamp L) + stamp_cost (showTimestamp L)) w)
    = (Normal v, w2, t) ->
  (forall p, v ≠ VPromise p) ->
  group L outer (group L inner callback) w =
    (Normal v, w2,
     opening (should_render L w) (group_title L outer w)
     ++ CallbackCall
        :: (opening (should_render L w)
              (group_title L inner (advance (stamp_cost (showTimestamp L)) w))
            ++ CallbackCall :: t ++ closing (should_render L w))
        ++ closing (should_render L w)).
Proof.
  intros Hcb Hv.
  apply (group_run_value L outer (group L inner callback) w w2 v); [|exact Hv].
  rewrite <- (should_render_advance L (stamp_cost (showTimestamp L)) w).
  apply group_run_value; [|exact Hv].
  rewrite advance_advance. exact Hcb.
Qed.

(** X13.  Nested groups over a promise: when the innermost callback
    returns a promise, both groups are open and neither is closed when
    the outer call returns; the promise it returns settles as the
    callback's promise does, and both closing calls come after that
    settlement. *)
Theorem nested_groups_deferred (L : Logger) (outer inner : string) (callback : M Value)
    (w w2 : World) (p : Promise) (t : list Event) :
  callback (advance (stamp_cost (showTimestamp L) + stamp_cost (showTimestamp L)) w)
    = (Normal (VPromise p), w2, t) ->
  group L outer (group L inner callback) w =
    (Normal (VPromise (PFinally (PFinally p (GroupCloser (should_render L w)))
                         (GroupCloser (should_render L w)))), w2,
     opening (should_render L w) (group_title L outer w)
     ++ CallbackCall
        :: opening (should_render L w)
             (group_title L inner (advance (stamp_cost (showTimestamp L)) w))
        ++ CallbackCall :: t) /\
  forall w3,
    settle (PFinally (PFinally p (GroupCloser (should_render L w)))
              (GroupCloser (should_render L w))) w3 =
    match settle p w3 with
    | None => None
    | Some (s, w4, t4) =>
        Some (s, w4, t4 ++ closing (should_render L w) ++ closing (should_render L w))
    end.
Proof.
  intros Hcb. split.
  - rewrite (group_run L outer). cbn zeta.
    rewrite (group_run L inner). cbn zeta.
    rewrite advance_advance, Hcb, should_render_advance. reflexivity.
  - intros w3. rewrite !settle_finally.
    destruct (settle p w3) as [[[s w4] t4]|]; [|reflexivity].
    now rewrite <- app_assoc.
Qed.

(** X14.  A group call makes no styled print, no warning and no hook
    call of its own: those of its events are the callback's.  In
    particular an error of the callback is not reported on the
    console. *)
Theorem group_adds_decoration_only (L : Logger) (title : string) (callback : M Value)
    (w : World) :
  prints (group L title callback w).2 =
    prints (callback (advance (stamp_cost (showTimestamp L)) w)).2 /\
  warnings (group L title callback w).2 =
    warnings (callback (advance (stamp_cost (showTimestamp L)) w)).2 /\
  invoked (group L title callback w).2 =
    invoked (callback (advance (stamp_cost (showTimestamp L)) w)).2.
Proof.
  rewrite group_run. cbn zeta.
  destruct (opening_silent (should_render L w) (group_title L title w)) as (Ho1 & Ho2 & Ho3).
  destruct (closing_silent (should_render L w)) as (Hc1 & Hc2 & Hc3).
  assert (Hshape : forall t c,
    prints c = [] -> warnings c = [] -> invoked c = [] ->
    prints (opening (should_render L w) (group_title L title w) ++ CallbackCall :: t ++ c)
      = prints t /\
    warnings (opening (should_render L w) (group_title L title w) ++ CallbackCall :: t ++ c)
      = warnings t /\
    invoked (opening (should_render L w) (group_title L title w) ++ CallbackCall :: t ++ c)
      = invoked t).
  { intros t c H1 H2 H3. change (CallbackCall :: t ++ c) with ([CallbackCall] ++ t ++ c).
    rewrite !prints_app, !warnings_app, !invoked_app, Ho1, Ho2, Ho3, H1, H2, H3.
    cbn. now rewrite !app_nil_r. }
  assert (Hopen : forall t,
    prints (opening (should_render L w) (group_title L title w) ++ CallbackCall :: t)
      = prints t /\
    warnings (opening (should_render L w) (group_title L title w) ++ CallbackCall :: t)
      = warnings t /\
    invoked (opening (should_render L w) (group_title L title w) ++ CallbackCall :: t)
      = invoked t).
  { intros t. rewrite <- (app_nil_r t) at 1 3 5. now apply Hshape. }
  destruct (callback (advance (stamp_cost (showTimestamp L)) w)) as [[[v|e|] w2] t];
    cbn [snd].
  - destruct v; solve [exact (Hshape t _ Hc1 Hc2 Hc3) | exact (Hopen t)].
  - exact (Hshape t _ Hc1 Hc2 Hc3).
  - exact (Hopen t).
Qed.

(** X15.  For a logger created with minimum level [l0]: a group is
    decorated exactly when the logger is enabled and [l0] is ['debug']
    or ['log'], while a call of level [l0] itself is printed whenever
    the logger is enabled.  With ['info'] or a higher minimum, groups
    are never decorated although their messages may be printed. *)
Theorem group_decoration_by_level (options : LoggerOptions) (now : nat) (w1 : World)
    (L : Logger) (l0 : LogLevel) :
  createLogger options now = (L, w1) ->
  opt_level options = Some (level_name l0) ->
  forall title callback args w,
    (exists rest,
       (group L title callback w).2 =
       (if isEnabled w && (rank l0 <=? rank Log)
        then [ConsoleGroupCollapsed (group_title L title w)
                "font-weight: bold; color: #888;"]
        else [])
       ++ CallbackCall :: rest) /\
    length (prints (emit_fn l0 L args w).2) = (if isEnabled w then 1%nat else 0%nat).
Proof.
  intros Hc Hl title callback args w.
  apply createLogger_fields in Hc as (_ & _ & _ & Hmin & _).
  rewrite Hl in Hmin. cbn [from_option id] in Hmin. rewrite LOG_LEVELS_get_level in Hmin.
  cbn [from_option id] in Hmin. split.
  - rewrite group_run. cbn zeta. unfold should_render, opening. rewrite Hmin. cbn [js_ge].
    destruct (callback (advance (stamp_cost (showTimestamp L)) w)) as [[[v|e|] w2] t];
      [destruct v| |]; cbn [snd]; eexists; reflexivity.
  - rewrite emit_fn_emit. cbn beta. rewrite emit_prints. unfold lets_through.
    rewrite Hmin. cbn [js_lt]. rewrite Z.ltb_irrefl.
    now destruct (isEnabled w).
Qed.

(** ** More on the hook registry and the toggle *)

Lemma hooks_delete_add (h : Hook) (s : list (option Hook)) :
  omap id (set_delete h (set_add h s)) = filter (fun x => x ≠ h) (omap id s).
Proof.
  rewrite hooks_set_delete, hooks_set_add. case_bool_decide; [reflexivity|].
  rewrite filter_app, filter_cons. destruct (decide (h ≠ h)) as [Hne|_].
  - now contradiction Hne.
  - rewrite filter_nil. apply app_nil_r.
Qed.





(** X18.  The closure [onLog] returns is bound to the callback, not to
    the registration: after the callback was unsubscribed and registered
    again, the closure of the first registration still removes it, and
    says so by returning true. *)
Theorem stale_closure_removes (h : Hook) (w : World) :
  exists w',
    (let* first := onLog h in
     let* _ := first in
     let* _ := onLog h in
     first) w = (Normal true, w', []) /\
    hooks w' = filter (fun x => x ≠ h) (hooks w) /\
    isEnabled w' = isEnabled w.
Proof.
  unfold bind at 1. rewrite onLog_run.
  unfold bind at 1. cbn [unsubscribe entries isEnabled ticks].
  unfold bind at 1. rewrite onLog_run. cbn [entries isEnabled ticks app].
  unfold unsubscribe. cbn [entries isEnabled ticks app].
  assert (Hhas : set_has h (set_add h (set_delete h (set_add h (entries w)))) = true).
  { rewrite set_has_hooks, hooks_set_add. apply bool_decide_eq_true_2.
    case_bool_decide as Hin; [exact Hin|].
    apply elem_of_app. right. now apply list_elem_of_singleton. }
  rewrite Hhas. eexists. split; [reflexivity|]. split; [|reflexivity].
  unfold hooks. cbn [entries]. rewrite hooks_delete_add, hooks_delete_add.
  apply list_filter_filter_l. intros x Hx. exact Hx.
Qed.

(** X19.  Disabling is without trace and undone by enabling: an emit
    call made while the logger is disabled does nothing at all, the
    hooks stay registered, and after [setEnabled(true)] an emit call
    does what it would have done had the logger never been disabled. *)
Theorem disable_enable_round_trip (L : Logger) (level : LogLevel) (args : list Value)
    (w : World) :
  isEnabled w = true ->
  (setEnabled false >> emit_fn level L args >> setEnabled true >> emit_fn level L args) w
  = emit_fn level L args w.
Proof.
  intros Hen. rewrite emit_fn_emit. cbn beta.
  unfold bind at 1. cbn [setEnabled modify].
  unfold bind at 1. rewrite emit_stopped by (left; reflexivity).
  unfold bind at 1. cbn [setEnabled modify isEnabled entries ticks].
  replace {| isEnabled := true; entries := entries w; ticks := ticks w |} with w
    by (destruct w; cbn in Hen; now subst).
  now destruct (emit L level args w) as [[r w'] t].
Qed.

(** ** More on what the operations keep *)

(** X20.  Through every sequence of emit, setEnabled, onLog and
    unsubscribe calls after its creation, and whatever the hooks do to
    the set during the emit calls, the hook set never holds a callback
    twice, however often it was registered. *)
Theorem no_hook_registered_twice (L : Logger) (w : World) (h : Hook) :
  reachable L w -> (count_occ Nat.eq_dec (hooks w) h <= 1)%nat.
Proof.
  intros Hreach. apply reachable_NoDup, NoDup_ListNoDup in Hreach.
  exact (proj1 (List.NoDup_count_occ Nat.eq_dec (hooks w)) Hreach h).
Qed.

(** X21.  Messages emitted in the callback of a group come inside it:
    the events of a group over a callback that emits and returns are
    the opening, the events of that emit call, made in the world the
    title composition leaves, and the closing, and the group returns
    normally; when the emit call does not return, neither does the
    group, and it is left open. *)
Theorem group_wraps_emit (L : Logger) (title : string) (level : LogLevel)
    (args : list Value) (w : World) :
  group L title (emit_fn level L args >> ret VUndefined) w =
  (match (emit_fn level L args (advance (stamp_cost (showTimestamp L)) w)).1.1 with
   | OutOfFuel => OutOfFuel
   | _ => Normal VUndefined
   end,
   (emit_fn level L args (advance (stamp_cost (showTimestamp L)) w)).1.2,
   opening (should_render L w) (group_title L title w)
   ++ CallbackCall
      :: (emit_fn level L args (advance (stamp_cost (showTimestamp L)) w)).2
      ++ match (emit_fn level L args (advance (stamp_cost (showTimestamp L)) w)).1.1 with
         | OutOfFuel => []
         | _ => closing (should_render L w)
         end).
Proof.
  rewrite group_run. cbn zeta. unfold bind, ret. rewrite emit_fn_emit. cbn beta.
  pose proof (emit_completion L level args (advance (stamp_cost (showTimestamp L)) w))
    as Hc.
  destruct (emit L level args (advance (stamp_cost (showTimestamp L)) w))
    as [[[[]|e|] w'] t]; cbn [fst snd] in Hc |- *.
  - rewrite app_nil_r. reflexivity.
  - destruct Hc as [Hc | Hc]; discriminate Hc.
  - rewrite app_nil_r. reflexivity.
Qed.

(** X22.  A configured level that names an inherited member (such as
    ['toString']) gives a minimum that is no number: the enabled logger
    prints every level, and no group is ever decorated. *)
Theorem inherited_level_name (options : LoggerOptions) (now : nat) (w1 : World)
    (L : Logger) (name : string) :
  createLogger options now = (L, w1) ->
  opt_level options = Some name ->
  LOG_LEVELS !! name = None ->
  name ∈ Object_prototype ->
  minLevel L = MinInherited name /\
  (forall level args w, isEnabled w = true ->
     prints (emit_fn level L args w).2 =
     [ConsoleLog (emit_prefix L level w) (js_get (mergedStyles L) (level_name level))
        args]) /\
  (forall title callback w,
     exists rest, (group L title callback w).2 = CallbackCall :: rest /\
                  prints rest = prints (callback (advance (stamp_cost (showTimestamp L)) w)).2).
Proof.
  intros Hc Hl Hown Hin. apply createLogger_fields in Hc as (_ & _ & _ & Hmin & _).
  rewrite Hl in Hmin. cbn [from_option id] in Hmin. unfold LOG_LEVELS_get in Hmin.
  rewrite Hown, bool_decide_eq_true_2 in Hmin by exact Hin. cbn [from_option id] in Hmin.
  split; [exact Hmin|]. split.
  - intros level args w Hen. rewrite emit_fn_emit. cbn beta.
    rewrite emit_prints. unfold lets_through. now rewrite Hen, Hmin.
  - intros title callback w. rewrite group_run. cbn zeta.
    unfold should_render. rewrite Hmin. cbn [js_ge]. rewrite andb_false_r.
    cbn [opening closing app].
    destruct (callback (advance (stamp_cost (showTimestamp L)) w)) as [[[v|e|] w2] t];
      [destruct v| |]; cbn [snd]; eexists; (split; [reflexivity|]);
      rewrite ?app_nil_r; reflexivity.
Qed.

(** ** A loop that does not end *)

Lemma set_delete_last (h : Hook) (n : nat) :
  set_delete h (replicate n None ++ [Some h]) = replicate (S n) None.
Proof.
  unfold set_delete. induction n as [|n IH].
  - cbn. now rewrite bool_decide_eq_true_2.
  - cbn [replicate app fmap list_fmap]. rewrite bool_decide_eq_false_2 by discriminate.
    f_equal. exact IH.
Qed.

Lemma set_has_replicate (h : Hook) (n : nat) : set_has h (replicate n None) = false.
Proof.
  unfold set_has. apply bool_decide_eq_false_2. intros Hin.
  apply elem_of_replicate in Hin as [Hin _]. discriminate Hin.
Qed.

(** A hook that unsubscribes itself and registers itself again leaves
    its old place in the set empty and takes a new place at the end. *)
Lemma after_hook_self_registering (L : Logger) (level : LogLevel) (args : list Value)
    (h : Hook) (w : World) (n : nat) :
  (hook_body h level (hook_meta L level args (ticks w)) (advance 1 w)).1
    = [DoUnsubscribe h; DoOnLog h] ->
  entries w = replicate n None ++ [Some h] ->
  entries (after_hook L level args h w) = replicate (S n) None ++ [Some h].
Proof.
  intros Hb He. unfold after_hook. rewrite Hb.
  cbn [run_actions run_action]. unfold bind, unsubscribe, onLog, modify, ret.
  cbn [fst snd entries advance]. rewrite He, set_delete_last.
  unfold bind. cbn [fst snd entries]. unfold set_add. now rewrite set_has_replicate.
Qed.

Lemma for_of_self_registering (L : Logger) (level : LogLevel) (args : list Value)
    (h : Hook) :
  (forall meta w', (hook_body h level meta w').1 = [DoUnsubscribe h; DoOnLog h]) ->
  forall n0 index n w, (index <= n)%nat ->
    entries w = replicate n None ++ [Some h] ->
    (for_of n0 index (dispatch_body L level args) w).1.1 = OutOfFuel.
Proof.
  intros Hb n0. induction n0 as [|n0 IH]; intros index n w Hle He.
  - destruct (entries w !! index) as [e|] eqn:Hi.
    + now rewrite (for_of_out index _ w e Hi).
    + apply lookup_ge_None in Hi. rewrite He, length_app, length_replicate in Hi.
      cbn in Hi. lia.
  - destruct (decide (index = n)) as [-> | Hne].
    + assert (Hi : entries w !! n = Some (Some h)).
      { rewrite He, lookup_app_r by (rewrite length_replicate; lia).
        now rewrite length_replicate, Nat.sub_diag. }
      rewrite (for_of_hook n0 n _ w h Hi). unfold bind. rewrite dispatch_body_run.
      specialize (IH (S n) (S n) (after_hook L level args h w) (le_n _)
                    (after_hook_self_registering L level args h w n (Hb _ _) He)).
      destruct (for_of n0 (S n) (dispatch_body L level args)
                  (after_hook L level args h w)) as [[r w2] t].
      cbn [fst snd] in IH |- *. now rewrite IH.
    + assert (Hi : entries w !! index = Some None).
      { rewrite He, lookup_app_l by (rewrite length_replicate; lia).
        apply lookup_replicate_2. lia. }
      rewrite (for_of_empty n0 index _ w Hi). apply (IH (S index) n w); [lia | exact He].
Qed.

Lemma emit_self_registering (L : Logger) (level : LogLevel) (args : list Value)
    (w : World) (h : Hook) :
  isEnabled w = true -> js_lt (Some (rank level)) (minLevel L) = false ->
  entries w = [Some h] ->
  (forall meta w', (hook_body h level meta w').1 = [DoUnsubscribe h; DoOnLog h]) ->
  (emit L level args w).1.1 = OutOfFuel.
Proof.
  intros Hen Hlt He Hb. rewrite (emit_open L level args w Hen Hlt). cbn [fst].
  apply (for_of_self_registering L level args h Hb fuel 0 0); [lia|].
  cbn. exact He.
Qed.

(** X23.  The loop over the hooks follows the set as it changes: when
    the one registered hook unsubscribes itself and registers itself
    again each time it is called, an emit call that passes the gate
    calls it again and again and does not return, however many steps the
    loop is given. *)
Theorem self_registering_hook_loops (L : Logger) (level : LogLevel)
    (args : list Value) (w : World) (h : Hook) :
  isEnabled w = true -> reaches (rank level) (minLevel L) ->
  entries w = [Some h] ->
  (forall meta w', (hook_body h level meta w').1 = [DoUnsubscribe h; DoOnLog h]) ->
  (emit_fn level L args w).1.1 = OutOfFuel.
Proof.
  intros Hen Hrank He Hb. rewrite emit_fn_emit. cbn beta.
  exact (emit_self_registering L level args w h Hen (reaches_not_lt _ _ Hrank) He Hb).
Qed.

End Environment.

(** ** The theorems at work on the sample environment *)


Lemma sample_logger_created :
  createLogger sample_options 0 = (sample_logger, created_world).
Proof. reflexivity. Qed.

(** [createLogger({ level: 'warn', ... })]: [info] is filtered, [warn]
    prints one line tagged [WARN] and reaches the hooks; hook 1 throws
    and hook 3 is called all the same. *)
Example sample_info_filtered :
  emit_fn sample_clock sample_format sample_hook_body sample_fuel Info sample_logger
    [VStr "x"] sample_world = (Normal tt, sample_world, []).
Proof. reflexivity. Qed.

Example sample_warn_printed :
  emit_fn sample_clock sample_format sample_hook_body sample_fuel Warn sample_logger
    [VStr "y"] sample_world =
  (Normal tt,
   {| isEnabled := true; entries := [Some 2; Some 1; Some 3]%nat; ticks := 4 |},
   [ConsoleLog "%c[12:00:00] [App] [WARN]" (Some "color: #f1fa8c; font-weight: bold;")
      [VStr "y"];
    HookCall 2%nat Warn (mkMeta 1000 (Some "App") Warn [VStr "y"]);
    HookCall 1%nat Warn (mkMeta 2000 (Some "App") Warn [VStr "y"]);
    ConsoleWarn "[Logger] Hook error:" (VStr "boom");
    HookCall 3%nat Warn (mkMeta 3000 (Some "App") Warn [VStr "y"])]).
Proof. vm_compute. reflexivity. Qed.

(** The loop runs out of steps when it is given fewer than the set has
    entries. *)
Example sample_short_of_steps :
  (emit_fn sample_clock sample_format sample_hook_body 2 Warn sample_logger
     [VStr "y"] sample_world).1.1 = OutOfFuel.
Proof. vm_compute. reflexivity. Qed.

(** The group is closed by the gate of the call, though the callback
    disabled the logger in between. *)
Example sample_group_closed :
  group sample_clock sample_format blank_logger "T" toggling_callback sample_world =
  (Normal (VNum 3),
   {| isEnabled := false; entries := [Some 2; Some 1; Some 3]%nat; ticks := 1 |},
   [ConsoleGroupCollapsed "%c[12:00:00] [GROUP] T" "font-weight: bold; color: #888;";
    CallbackCall; ConsoleGroupEnd]).
Proof. vm_compute. reflexivity. Qed.

(** A group over a promise is still open when [group] returns, and is
    closed when the promise has settled. *)
Example sample_async_group :
  group sample_clock sample_format blank_logger "T" deferred_callback sample_world =
  (Normal (VPromise (PFinally (PNative 0) (GroupCloser true))), advance 1 sample_world,
   [ConsoleGroupCollapsed "%c[12:00:00] [GROUP] T" "font-weight: bold; color: #888;";
    CallbackCall]) /\
  settle sample_fate (PFinally (PNative 0) (GroupCloser true)) (advance 1 sample_world) =
  Some (Fulfilled (VNum 7), advance 2 sample_world, [ConsoleGroupEnd]) /\
  settle sample_fate (PFinally (PNative 1) (GroupCloser true)) (advance 1 sample_world) =
  None.
Proof. repeat split; vm_compute; reflexivity. Qed.

(** Under minimum level ['warn'] a group is not decorated, and its
    callback runs all the same. *)
Example sample_group_undecorated :
  group sample_clock sample_format sample_logger "T" toggling_callback sample_world =
  (Normal (VNum 3),
   {| isEnabled := false; entries := [Some 2; Some 1; Some 3]%nat; ticks := 1 |},
   [CallbackCall]).
Proof. vm_compute. reflexivity. Qed.

(** ** C1 *)



(** ** C2 *)

Lemma emit_below_gate_witness :
  (isEnabled sample_world = false \/ below (rank Info) (minLevel sample_logger)) /\
  emit_fn sample_clock sample_format sample_hook_body sample_fuel Info sample_logger
    [VStr "x"] sample_world = (Normal tt, sample_world, []) /\
  prints (emit_fn sample_clock sample_format sample_hook_body sample_fuel Info
            sample_logger [VStr "x"] sample_world).2 = [] /\
  invoked (emit_fn sample_clock sample_format sample_hook_body sample_fuel Info
             sample_logger [VStr "x"] sample_world).2 = [].
Proof.
  assert (H : isEnabled sample_world = false \/ below (rank Info) (minLevel sample_logger))
    by (right; vm_compute; reflexivity).
  split; [exact H|].
  exact (emit_below_gate sample_clock sample_format sample_hook_body sample_fuel
           sample_logger Info [VStr "x"] sample_world H).
Defined.

(** ** C3 *)



(** ** C5 *)

Lemma group_deferred_witness :
  deferred_callback (advance (stamp_cost (showTimestamp blank_logger)) sample_world)
    = (Normal (VPromise (PNative 0)), advance 1 sample_world, []) /\
  group sample_clock sample_format blank_logger "T" deferred_callback sample_world =
    (Normal (VPromise (PFinally (PNative 0)
                         (GroupCloser (should_render blank_logger sample_world)))),
     advance 1 sample_world,
     opening (should_render blank_logger sample_world)
       (group_title sample_clock sample_format blank_logger "T" sample_world)
     ++ CallbackCall :: []) /\
  (forall w3 : World,
     settle sample_fate
       (PFinally (PNative 0) (GroupCloser (should_render blank_logger sample_world))) w3 =
     match settle sample_fate (PNative 0) w3 with
     | None => None
     | Some (s, w4, t4) =>
         Some (s, w4, t4 ++ closing (should_render blank_logger sample_world))
     end) /\
  length (opening (should_render blank_logger sample_world)
            (group_title sample_clock sample_format blank_logger "T" sample_world))
    = length (closing (should_render blank_logger sample_world)).
Proof.
  assert (H : deferred_callback
                (advance (stamp_cost (showTimestamp blank_logger)) sample_world)
              = (Normal (VPromise (PNative 0)), advance 1 sample_world, []))
    by reflexivity.
  split; [exact H|].
  exact (group_deferred sample_clock sample_format sample_fate blank_logger "T"
           deferred_callback sample_world (advance 1 sample_world) (PNative 0) [] H).
Defined.

(** C5 as the specification states it, for every promise-like value,
    fails: a callback that returns a promise-like object that is no
    [Promise] gets that object back from [group], and the group is
    closed before [group] returns, so before the computation
    settles. *)
Lemma group_deferred_counterexample :
  deferred (VThenable 0) /\
  thenable_callback (advance (stamp_cost (showTimestamp blank_logger)) sample_world)
    = (Normal (VThenable 0), advance 1 sample_world, []) /\
  should_render blank_logger sample_world = true /\
  group sample_clock sample_format blank_logger "T" thenable_callback sample_world =
  (Normal (VThenable 0), advance 1 sample_world,
   [ConsoleGroupCollapsed "%c[12:00:00] [GROUP] T" "font-weight: bold; color: #888;";
    CallbackCall; ConsoleGroupEnd]).
Proof.
  split; [exact I|]. split; [reflexivity|]. split; vm_compute; reflexivity.
Qed.

(** ** C6 *)

Lemma group_callback_throws_witness :
  failing_callback (advance (stamp_cost (showTimestamp blank_logger)) sample_world)
    = (Throw (VStr "fail"),
       {| isEnabled := false; entries := [Some 2; Some 1; Some 3]%nat; ticks := 1 |}, []) /\
  group sample_clock sample_format blank_logger "T" failing_callback sample_world =
    (Throw (VStr "fail"),
     {| isEnabled := false; entries := [Some 2; Some 1; Some 3]%nat; ticks := 1 |},
     opening (should_render blank_logger sample_world)
       (group_title sample_clock sample_format blank_logger "T" sample_world)
     ++ CallbackCall :: [] ++ closing (should_render blank_logger sample_world)) /\
  length (opening (should_render blank_logger sample_world)
            (group_title sample_clock sample_format blank_logger "T" sample_world))
    = length (closing (should_render blank_logger sample_world)).
Proof.
  assert (H : failing_callback
                (advance (stamp_cost (showTimestamp blank_logger)) sample_world)
              = (Throw (VStr "fail"),
                 {| isEnabled := false; entries := [Some 2; Some 1; Some 3]%nat;
                    ticks := 1 |}, []))
    by reflexivity.
  split; [exact H|].
  exact (group_callback_throws sample_clock sample_format blank_logger "T"
           failing_callback sample_world _ (VStr "fail") [] H).
Defined.

(** ** C8 *)


(** ** C9 *)



(** ** C10 *)

Lemma empty_namespace_is_absent_witness :
  namespace blank_logger = Some "" /\
  (forall level args w, isEnabled w = true -> reaches (rank level) (minLevel blank_logger) ->
     prints (emit_fn sample_clock sample_format sample_hook_body sample_fuel level
               blank_logger args w).2 =
     [ConsoleLog ("%c" +:+ join " " (stamp sample_clock sample_format
                                       (showTimestamp blank_logger) w ++ [level_tag level]))
        (js_get (mergedStyles blank_logger) (level_name level)) args]) /\
  (forall level args w,
     prints (emit_fn sample_clock sample_format sample_hook_body sample_fuel level
               blank_logger args w).2 =
     prints (emit_fn sample_clock sample_format sample_hook_body sample_fuel level
               (without_namespace blank_logger) args w).2) /\
  (forall title callback w, should_render blank_logger w = true ->
     exists rest,
       (group sample_clock sample_format blank_logger title callback w).2 =
       ConsoleGroupCollapsed
         ("%c" +:+ join " " (stamp sample_clock sample_format
                               (showTimestamp blank_logger) w ++ ["[GROUP] " +:+ title]))
         "font-weight: bold; color: #888;" :: rest) /\
  (forall title callback w,
     group sample_clock sample_format blank_logger title callback w =
     group sample_clock sample_format (without_namespace blank_logger) title callback w).
Proof.
  assert (H : namespace blank_logger = Some "") by reflexivity.
  split; [exact H|].
  exact (empty_namespace_is_absent sample_clock sample_format sample_hook_body sample_fuel
           blank_logger H).
Defined.

(** ** The further properties on the sample environment *)

Lemma unknown_level_prints_all_witness :
  createLogger verbose_options 0 = (verbose_logger, created_world) /\
  opt_level verbose_options = Some "verbose" /\
  LOG_LEVELS_get "verbose" = None /\
  minLevel verbose_logger = MinRank 0 /\
  forall level args w, isEnabled w = true ->
    prints (emit_fn sample_clock sample_format sample_hook_body sample_fuel level
              verbose_logger args w).2 =
    [ConsoleLog (emit_prefix sample_clock sample_format verbose_logger level w)
       (js_get (mergedStyles verbose_logger) (level_name level)) args].
Proof.
  assert (H1 : createLogger verbose_options 0 = (verbose_logger, created_world))
    by reflexivity.
  assert (H2 : opt_level verbose_options = Some "verbose") by reflexivity.
  assert (H3 : LOG_LEVELS_get "verbose" = None) by (vm_compute; reflexivity).
  split; [exact H1|]. split; [exact H2|]. split; [exact H3|].
  exact (unknown_level_prints_all sample_clock sample_format sample_hook_body sample_fuel
           verbose_options 0 created_world verbose_logger "verbose" H1 H2 H3).
Defined.

Lemma highest_level_never_filtered_witness :
  createLogger sample_options 0 = (sample_logger, created_world) /\
  (forall r, minLevel sample_logger = MinRank r -> 0 <= r <= 5) /\
  forall args w, isEnabled w = true ->
    prints (emit_fn sample_clock sample_format sample_hook_body sample_fuel Success
              sample_logger args w).2 =
    [ConsoleLog (emit_prefix sample_clock sample_format sample_logger Success w)
       (js_get (mergedStyles sample_logger) "success") args].
Proof.
  assert (H1 : createLogger sample_options 0 = (sample_logger, created_world))
    by reflexivity.
  split; [exact H1|].
  exact (highest_level_never_filtered sample_clock sample_format sample_hook_body
           sample_fuel sample_options 0 created_world sample_logger H1).
Defined.

Lemma configured_level_filters_witness :
  createLogger info_options 0 = (info_logger, created_world) /\
  opt_level info_options = Some (level_name Info) /\
  isEnabled sample_world = true /\
  length (prints (emit_fn sample_clock sample_format sample_hook_body sample_fuel Log
                    info_logger [VStr "x"] sample_world).2) =
    (if rank Info <=? rank Log then 1%nat else 0%nat) /\
  (rank Log < rank Info ->
   emit_fn sample_clock sample_format sample_hook_body sample_fuel Log info_logger
     [VStr "x"] sample_world = (Normal tt, sample_world, [])).
Proof.
  assert (H1 : createLogger info_options 0 = (info_logger, created_world)) by reflexivity.
  assert (H2 : opt_level info_options = Some (level_name Info)) by reflexivity.
  assert (H3 : isEnabled sample_world = true) by reflexivity.
  split; [exact H1|]. split; [exact H2|]. split; [exact H3|].
  exact (configured_level_filters sample_clock sample_format sample_hook_body sample_fuel
           info_options 0 created_world info_logger Info H1 H2 Log [VStr "x"]
           sample_world H3).
Defined.

Lemma fresh_logger_prints_witness :
  opt_level default_options = None /\
  exists prefix w',
    emit_fn sample_clock sample_format sample_hook_body sample_fuel Info
      (createLogger default_options 0).1 [VStr "x"] (createLogger default_options 0).2 =
    (Normal tt, w',
     [ConsoleLog prefix
        (match default ∅ (opt_styles default_options) !! level_name Info with
         | Some value => value
         | None => Some (default_token Info)
         end) [VStr "x"]]) /\
    isEnabled w' = true /\ hooks w' = [].
Proof.
  assert (H1 : opt_level default_options = None) by reflexivity.
  split; [exact H1|].
  exact (fresh_logger_prints sample_clock sample_format sample_hook_body sample_fuel
           default_options Info [VStr "x"] 0 H1).
Defined.


Lemma unknown_style_key_ignored_witness :
  (forall l, "fatal" ≠ level_name l) /\
  createLogger sample_options 0 = (sample_logger, created_world) /\
  createLogger (with_style "fatal" "color: black;" sample_options) 0 =
    ((createLogger (with_style "fatal" "color: black;" sample_options) 0).1,
     created_world) /\
  created_world = created_world /\
  forall level args w,
    emit_fn sample_clock sample_format sample_hook_body sample_fuel level
      (createLogger (with_style "fatal" "color: black;" sample_options) 0).1 args w =
    emit_fn sample_clock sample_format sample_hook_body sample_fuel level sample_logger
      args w.
Proof.
  assert (H1 : forall l, "fatal" ≠ level_name l) by (intros l; destruct l; discriminate).
  assert (H2 : createLogger sample_options 0 = (sample_logger, created_world))
    by reflexivity.
  assert (H3 : createLogger (with_style "fatal" "color: black;" sample_options) 0 =
               ((createLogger (with_style "fatal" "color: black;" sample_options) 0).1,
                created_world)) by reflexivity.
  split; [exact H1|]. split; [exact H2|]. split; [exact H3|].
  exact (unknown_style_key_ignored sample_clock sample_format sample_hook_body sample_fuel
           sample_options "fatal" "color: black;" 0 created_world created_world
           sample_logger _ H1 H2 H3).
Defined.



Lemma prefix_with_namespace_witness :
  namespace sample_logger = Some "App" /\
  "App" ≠ "" /\
  isEnabled sample_world = true /\
  reaches (rank Warn) (minLevel sample_logger) /\
  prints (emit_fn sample_clock sample_format sample_hook_body sample_fuel Warn
            sample_logger [VStr "y"] sample_world).2 =
  [ConsoleLog
     ("%c" +:+
      (if showTimestamp sample_logger
       then ("[" +:+ sample_format (sample_clock (ticks sample_world)) +:+ "]") +:+ " "
       else "") +:+
      ("[" +:+ "App" +:+ "]") +:+ " " +:+
      ("[" +:+ toUpperCase (level_name Warn) +:+ "]"))
     (js_get (mergedStyles sample_logger) (level_name Warn)) [VStr "y"]].
Proof.
  assert (H1 : namespace sample_logger = Some "App") by reflexivity.
  assert (H2 : "App" ≠ "") by discriminate.
  assert (H3 : isEnabled sample_world = true) by reflexivity.
  assert (H4 : reaches (rank Warn) (minLevel sample_logger))
    by (vm_compute; discriminate).
  split; [exact H1|]. split; [exact H2|]. split; [exact H3|]. split; [exact H4|].
  exact (prefix_with_namespace sample_clock sample_format sample_hook_body sample_fuel
           sample_logger "App" Warn [VStr "y"] sample_world H1 H2 H3 H4).
Defined.

Lemma group_returns_value_witness :
  value_callback (advance (stamp_cost (showTimestamp blank_logger)) sample_world)
    = (Normal (VNum 3), advance 1 sample_world, []) /\
  (forall p, VNum 3 ≠ VPromise p) /\
  group sample_clock sample_format blank_logger "T" value_callback sample_world =
    (Normal (VNum 3), advance 1 sample_world,
     (if should_render blank_logger sample_world
      then [ConsoleGroupCollapsed
              (group_title sample_clock sample_format blank_logger "T" sample_world)
              "font-weight: bold; color: #888;"]
      else [])
     ++ CallbackCall :: []
     ++ (if should_render blank_logger sample_world then [ConsoleGroupEnd] else [])).
Proof.
  assert (H1 : value_callback
                 (advance (stamp_cost (showTimestamp blank_logger)) sample_world)
               = (Normal (VNum 3), advance 1 sample_world, [])) by reflexivity.
  assert (H2 : forall p, VNum 3 ≠ VPromise p) by (intros p; discriminate).
  split; [exact H1|]. split; [exact H2|].
  exact (group_returns_value sample_clock sample_format blank_logger "T" value_callback
           sample_world (advance 1 sample_world) (VNum 3) [] H1 H2).
Defined.

Lemma nested_groups_bracket_witness :
  value_callback
    (advance (stamp_cost (showTimestamp blank_logger)
              + stamp_cost (showTimestamp blank_logger)) sample_world)
    = (Normal (VNum 3), advance 2 sample_world, []) /\
  (forall p, VNum 3 ≠ VPromise p) /\
  group sample_clock sample_format blank_logger "A"
    (group sample_clock sample_format blank_logger "B" value_callback) sample_world =
    (Normal (VNum 3), advance 2 sample_world,
     opening (should_render blank_logger sample_world)
       (group_title sample_clock sample_format blank_logger "A" sample_world)
     ++ CallbackCall
        :: (opening (should_render blank_logger sample_world)
              (group_title sample_clock sample_format blank_logger "B"
                 (advance (stamp_cost (showTimestamp blank_logger)) sample_world))
            ++ CallbackCall :: [] ++ closing (should_render blank_logger sample_world))
        ++ closing (should_render blank_logger sample_world)).
Proof.
  assert (H1 : value_callback
                 (advance (stamp_cost (showTimestamp blank_logger)
                           + stamp_cost (showTimestamp blank_logger)) sample_world)
               = (Normal (VNum 3), advance 2 sample_world, [])) by reflexivity.
  assert (H2 : forall p, VNum 3 ≠ VPromise p) by (intros p; discriminate).
  split; [exact H1|]. split; [exact H2|].
  exact (nested_groups_bracket sample_clock sample_format blank_logger "A" "B"
           value_callback sample_world (advance 2 sample_world) (VNum 3) [] H1 H2).
Defined.

Lemma nested_groups_deferred_witness :
  deferred_callback
    (advance (stamp_cost (showTimestamp blank_logger)
              + stamp_cost (showTimestamp blank_logger)) sample_world)
    = (Normal (VPromise (PNative 0)), advance 2 sample_world, []) /\
  group sample_clock sample_format blank_logger "A"
    (group sample_clock sample_format blank_logger "B" deferred_callback) sample_world =
    (Normal (VPromise (PFinally (PFinally (PNative 0)
                                   (GroupCloser (should_render blank_logger sample_world)))
                         (GroupCloser (should_render blank_logger sample_world)))),
     advance 2 sample_world,
     opening (should_render blank_logger sample_world)
       (group_title sample_clock sample_format blank_logger "A" sample_world)
     ++ CallbackCall
        :: opening (should_render blank_logger sample_world)
             (group_title sample_clock sample_format blank_logger "B"
                (advance (stamp_cost (showTimestamp blank_logger)) sample_world))
        ++ CallbackCall :: []) /\
  forall w3,
    settle sample_fate
      (PFinally (PFinally (PNative 0)
                   (GroupCloser (should_render blank_logger sample_world)))
         (GroupCloser (should_render blank_logger sample_world))) w3 =
    match settle sample_fate (PNative 0) w3 with
    | None => None
    | Some (s, w4, t4) =>
        Some (s, w4, t4 ++ closing (should_render blank_logger sample_world)
                        ++ closing (should_render blank_logger sample_world))
    end.
Proof.
  assert (H1 : deferred_callback
                 (advance (stamp_cost (showTimestamp blank_logger)
                           + stamp_cost (showTimestamp blank_logger)) sample_world)
               = (Normal (VPromise (PNative 0)), advance 2 sample_world, []))
    by reflexivity.
  split; [exact H1|].
  exact (nested_groups_deferred sample_clock sample_format sample_fate blank_logger
           "A" "B" deferred_callback sample_world (advance 2 sample_world) (PNative 0)
           [] H1).
Defined.

Lemma group_decoration_by_level_witness :
  createLogger info_options 0 = (info_logger, created_world) /\
  opt_level info_options = Some (level_name Info) /\
  (exists rest,
     (group sample_clock sample_format info_logger "T" value_callback sample_world).2 =
     (if isEnabled sample_world && (rank Info <=? rank Log)
      then [ConsoleGroupCollapsed
              (group_title sample_clock sample_format info_logger "T" sample_world)
              "font-weight: bold; color: #888;"]
      else [])
     ++ CallbackCall :: rest) /\
  length (prints (emit_fn sample_clock sample_format sample_hook_body sample_fuel Info
                    info_logger [VStr "x"] sample_world).2)
    = (if isEnabled sample_world then 1%nat else 0%nat).
Proof.
  assert (H1 : createLogger info_options 0 = (info_logger, created_world)) by reflexivity.
  assert (H2 : opt_level info_options = Some (level_name Info)) by reflexivity.
  split; [exact H1|]. split; [exact H2|].
  exact (group_decoration_by_level sample_clock sample_format sample_hook_body sample_fuel
           info_options 0 created_world info_logger Info H1 H2 "T" value_callback
           [VStr "x"] sample_world).
Defined.



Lemma disable_enable_round_trip_witness :
  isEnabled sample_world = true /\
  (setEnabled false >>
   emit_fn sample_clock sample_format sample_hook_body sample_fuel Warn sample_logger
     [VStr "y"] >>
   setEnabled true >>
   emit_fn sample_clock sample_format sample_hook_body sample_fuel Warn sample_logger
     [VStr "y"]) sample_world
  = emit_fn sample_clock sample_format sample_hook_body sample_fuel Warn sample_logger
      [VStr "y"] sample_world.
Proof.
  assert (H1 : isEnabled sample_world = true) by reflexivity.
  split; [exact H1|].
  exact (disable_enable_round_trip sample_clock sample_format sample_hook_body sample_fuel
           sample_logger Warn [VStr "y"] sample_world H1).
Defined.

Lemma no_hook_registered_twice_witness :
  reachable sample_clock sample_format meddling_hook_body sample_fuel sample_logger
    (run_call sample_clock sample_format meddling_hook_body sample_fuel sample_logger
       (CallEmit Warn [])
       (run_call sample_clock sample_format meddling_hook_body sample_fuel sample_logger
          (CallOnLog 5%nat) (createLogger sample_options 0).2).1.2).1.2 /\
  (count_occ Nat.eq_dec
     (hooks
        (run_call sample_clock sample_format meddling_hook_body sample_fuel sample_logger
           (CallEmit Warn [])
           (run_call sample_clock sample_format meddling_hook_body sample_fuel
              sample_logger (CallOnLog 5%nat) (createLogger sample_options 0).2).1.2).1.2)
     5%nat <= 1)%nat.
Proof.
  assert (H1 : reachable sample_clock sample_format meddling_hook_body sample_fuel
                 sample_logger
                 (run_call sample_clock sample_format meddling_hook_body sample_fuel
                    sample_logger (CallEmit Warn [])
                    (run_call sample_clock sample_format meddling_hook_body sample_fuel
                       sample_logger (CallOnLog 5%nat)
                       (createLogger sample_options 0).2).1.2).1.2).
  { apply reach_call, reach_call, reach_created. reflexivity. }
  split; [exact H1|].
  exact (no_hook_registered_twice sample_clock sample_format meddling_hook_body
           sample_fuel sample_logger _ 5%nat H1).
Defined.

Lemma inherited_level_name_witness :
  createLogger inherited_options 0 =
    ((createLogger inherited_options 0).1, created_world) /\
  opt_level inherited_options = Some "toString" /\
  LOG_LEVELS !! "toString" = None /\
  "toString" ∈ Object_prototype /\
  minLevel (createLogger inherited_options 0).1 = MinInherited "toString" /\
  (forall level args w, isEnabled w = true ->
     prints (emit_fn sample_clock sample_format sample_hook_body sample_fuel level
               (createLogger inherited_options 0).1 args w).2 =
     [ConsoleLog
        (emit_prefix sample_clock sample_format (createLogger inherited_options 0).1
           level w)
        (js_get (mergedStyles (createLogger inherited_options 0).1) (level_name level))
        args]) /\
  (forall title callback w,
     exists rest,
       (group sample_clock sample_format (createLogger inherited_options 0).1 title
          callback w).2 = CallbackCall :: rest /\
       prints rest =
       prints (callback
                 (advance (stamp_cost (showTimestamp (createLogger inherited_options 0).1))
                    w)).2).
Proof.
  assert (H1 : createLogger inherited_options 0 =
               ((createLogger inherited_options 0).1, created_world)) by reflexivity.
  assert (H2 : opt_level inherited_options = Some "toString") by reflexivity.
  assert (H3 : LOG_LEVELS !! "toString" = None) by (vm_compute; reflexivity).
  assert (H4 : "toString" ∈ Object_prototype)
    by (apply (bool_decide_unpack _); vm_compute; exact I).
  split; [exact H1|]. split; [exact H2|]. split; [exact H3|]. split; [exact H4|].
  exact (inherited_level_name sample_clock sample_format sample_hook_body sample_fuel
           inherited_options 0 created_world _ "toString" H1 H2 H3 H4).
Defined.

Lemma self_registering_hook_loops_witness :
  isEnabled looping_world = true /\
  reaches (rank Warn) (minLevel sample_logger) /\
  entries looping_world = [Some 7%nat] /\
  (forall meta w', (meddling_hook_body 7%nat Warn meta w').1
                   = [DoUnsubscribe 7%nat; DoOnLog 7%nat]) /\
  (emit_fn sample_clock sample_format meddling_hook_body sample_fuel Warn sample_logger
     [] looping_world).1.1 = OutOfFuel.
Proof.
  assert (H1 : isEnabled looping_world = true) by reflexivity.
  assert (H2 : reaches (rank Warn) (minLevel sample_logger))
    by (vm_compute; discriminate).
  assert (H3 : entries looping_world = [Some 7%nat]) by reflexivity.
  assert (H4 : forall meta w', (meddling_hook_body 7%nat Warn meta w').1
                               = [DoUnsubscribe 7%nat; DoOnLog 7%nat])
    by (intros meta w'; reflexivity).
  split; [exact H1|]. split; [exact H2|]. split; [exact H3|]. split; [exact H4|].
  exact (self_registering_hook_loops sample_clock sample_format meddling_hook_body
           sample_fuel sample_logger Warn [] looping_world 7%nat H1 H2 H3 H4).
Defined.
